(** * Memphora framework integrations: a shallow embedding of
      [integrations.py] and the properties of its four adapters.

    The adapters are glue between host frameworks and one backend client
    ([Memphora]).  The client is external: it is modelled by the trace of
    the calls issued on it, and by a [Backend] of answers that may depend
    on the whole trace so far.  Adapter methods are state transformers on
    the adapter object; Python exceptions are explicit outcomes. *)

From stdpp Require Import gmap strings list fin_maps pretty.
From Stdlib Require Import ZArith Lia Ascii.

Open Scope string_scope.
Open Scope list_scope.
Open Scope Z_scope.

(** ** Python values *)

(** The values an [Any]-typed mapping entry holds in this model: [None],
    booleans, integers and strings.  Strings are the UTF-8 bytes of the
    Python [str]. *)
Inductive pyval :=
| VNone
| VBool (b : bool)
| VInt (z : Z)
| VStr (s : string).

(** Truth value of a Python object, as used by [if x], [not x], [x and y]. *)
Definition py_truthy (v : pyval) : bool :=
  match v with
  | VNone => false
  | VBool b => b
  | VInt z => negb (z =? 0)
  | VStr s => negb (String.eqb s "")
  end.

(** [x and y]: the first operand when it is falsy, the second otherwise. *)
Definition py_and (x y : pyval) : pyval :=
  if py_truthy x then y else x.

(** [str(v)]. *)
Definition py_str (v : pyval) : string :=
  match v with
  | VNone => "None"
  | VBool true => "True"
  | VBool false => "False"
  | VInt z => pretty z
  | VStr s => s
  end.

(** [d.get(k, default)]. *)
Definition py_get {V} (d : gmap string V) (k : string) (default : V) : V :=
  match d !! k with
  | Some v => v
  | None => default
  end.

(** ** Strings *)

(** [c.lower()] on one byte: [A]..[Z] move to [a]..[z]; every other byte,
    in particular every byte of a multi-byte UTF-8 sequence, stays. *)
Definition lower_ascii (c : ascii) : ascii :=
  let n := N_of_ascii c in
  if ((65 <=? n) && (n <=? 90))%N then ascii_of_N (n + 32) else c.

(** [s.lower()].  Python also lowers letters outside ASCII, which this
    byte-wise version leaves alone.  Only two of them lower to text with
    an ASCII letter: U+212A to [k], and U+0130 to [i] followed by a
    combining dot.  No keyword searched for in this file has a [k], and
    none has an [i] that is not followed by a letter, so both versions
    find the same keywords. *)
Fixpoint lower (s : string) : string :=
  match s with
  | EmptyString => EmptyString
  | String c s' => String (lower_ascii c) (lower s')
  end.

(** [kw in s]: [kw] occurs in [s] as a contiguous run. *)
Fixpoint contains (kw s : string) : bool :=
  if String.prefix kw s then true
  else match s with
       | EmptyString => false
       | String _ s' => contains kw s'
       end.

(** [sep.join(lines)]. *)
Fixpoint join (sep : string) (lines : list string) : string :=
  match lines with
  | [] => ""
  | [l] => l
  | l :: rest => l +:+ sep +:+ join sep rest
  end.

(** The line feed of ["\n"]. *)
Definition newline : string := String (ascii_of_N 10) EmptyString.

(** ** Outcomes and the adapter monad *)

Inductive exn :=
| KeyError (k : string)
| IndexError
| TypeError.

Inductive outcome (A : Type) :=
| Ret (a : A)
| Raise (e : exn).
Arguments Ret {A} a.
Arguments Raise {A} e.

(** A method on an object of type [S]: it returns or raises, and leaves
    the object in a new state either way. *)
Definition Py (S A : Type) : Type := S → outcome A * S.

Definition ret {S A} (a : A) : Py S A := λ s, (Ret a, s).

Definition raise {S A} (e : exn) : Py S A := λ s, (Raise e, s).

Definition bind {S A B} (m : Py S A) (k : A → Py S B) : Py S B :=
  λ s, match m s with
       | (Ret a, s') => k a s'
       | (Raise e, s') => (Raise e, s')
       end.

Definition modify {S} (f : S → S) : Py S unit := λ s, (Ret tt, f s).

Definition gets {S A} (f : S → A) : Py S A := λ s, (Ret (f s), s).

Declare Scope py_scope.
Delimit Scope py_scope with py.
Notation "x <~ m ;; k" := (bind m (λ x, k))
  (at level 100, m at next level, right associativity) : py_scope.
Notation "m ;;; k" := (bind m (λ _, k))
  (at level 100, right associativity) : py_scope.
Open Scope py_scope.

(** [for x in xs: body(x)]. *)
Fixpoint for_each {S A} (xs : list A) (body : A → Py S unit) : Py S unit :=
  match xs with
  | [] => ret tt
  | x :: xs' => body x ;;; for_each xs' body
  end.

(** [d[k]] on a dict. *)
Definition py_getitem {S V} (d : gmap string V) (k : string) : Py S V :=
  match d !! k with
  | Some v => ret v
  | None => raise (KeyError k)
  end.

(** [l[i]] on a list; a negative index counts from the end. *)
Definition py_index {S A} (l : list A) (i : Z) : Py S A :=
  let n := Z.of_nat (length l) in
  let j := if i <? 0 then i + n else i in
  if (0 <=? j) && (j <? n) then
    match l !! Z.to_nat j with
    | Some x => ret x
    | None => raise IndexError
    end
  else raise IndexError.

(** [range(start, stop, step)] for a positive [step]. *)
Definition py_range (start stop step : Z) : list Z :=
  (λ k : nat, start + Z.of_nat k * step) <$>
    seq 0 (Z.to_nat ((stop - start + step - 1) `div` step)).

(** ** The backend client *)

(** A fact of a search result: a structured record or any other value. *)
Inductive fact :=
| FactDict (d : gmap string pyval)
| FactVal (v : pyval).

(** The calls the adapters issue on the [Memphora] client. *)
Inductive call :=
| get_context_call (query : pyval) (limit : Z)
| store_conversation_call (user_message assistant_message : pyval)
| clear_call
| store_agent_memory_call (agent_id content : string)
    (metadata : gmap string pyval)
| search_agent_memories_call (agent_id query : string) (limit : Z)
| search_call (query : string) (limit : Z).

(** What the backend answers, given the calls it has received before.
    The client is assumed to answer; its own failures are not modelled. *)
Record Backend := {
  context_answer : list call → pyval → Z → string;
  search_answer : list call → string → Z → gmap string (list fact);
  search_agent_answer :
    list call → string → string → Z → gmap string (list fact)
}.

(** An adapter object holds one client, [self.memphora]. *)
Class Client (S : Type) := {
  client_calls : S → list call;
  with_calls : list call → S → S
}.

Module Memphora.
Section Methods.
Context {S : Type} `{Client S} (B : Backend).

Definition issue (c : call) : Py S unit :=
  modify (λ s, with_calls (client_calls s ++ [c]) s).

Definition get_context (query : pyval) (limit : Z) : Py S string :=
  seen <~ gets client_calls ;;
  issue (get_context_call query limit) ;;;
  ret (context_answer B seen query limit).

Definition store_conversation (user_message assistant_message : pyval)
  : Py S unit :=
  issue (store_conversation_call user_message assistant_message).

Definition clear : Py S unit := issue clear_call.

Definition store_agent_memory (agent_id content : string)
    (metadata : gmap string pyval) : Py S unit :=
  issue (store_agent_memory_call agent_id content metadata).

Definition search_agent_memories (agent_id query : string) (limit : Z)
  : Py S (gmap string (list fact)) :=
  seen <~ gets client_calls ;;
  issue (search_agent_memories_call agent_id query limit) ;;;
  ret (search_agent_answer B seen agent_id query limit).

Definition search (query : string) (limit : Z)
  : Py S (gmap string (list fact)) :=
  seen <~ gets client_calls ;;
  issue (search_call query limit) ;;;
  ret (search_answer B seen query limit).
End Methods.
End Memphora.

(** ** LangChain integration *)

Module LangChain.

Record MemphoraLangChain := {
  memphora : list call;
  session_id : string;
  memory_key : string;
  input_key : string;
  output_key : string;
  return_messages : bool;
  human_prefix : string;
  ai_prefix : string
}.

#[global] Instance client : Client MemphoraLangChain := {
  client_calls := memphora;
  with_calls t self :=
    {| memphora := t; session_id := session_id self;
       memory_key := memory_key self; input_key := input_key self;
       output_key := output_key self;
       return_messages := return_messages self;
       human_prefix := human_prefix self; ai_prefix := ai_prefix self |}
}.

(** [__init__], with the defaults of the signature to be passed by the
    caller; [session_id or user_id]. *)
Definition init (user_id : string) (session_id : option string)
    (memory_key input_key output_key : string) (return_messages : bool)
    (human_prefix ai_prefix : string) : MemphoraLangChain :=
  {| memphora := [];
     session_id := match session_id with
                   | Some s => if String.eqb s "" then user_id else s
                   | None => user_id
                   end;
     memory_key := memory_key; input_key := input_key;
     output_key := output_key; return_messages := return_messages;
     human_prefix := human_prefix; ai_prefix := ai_prefix |}.

(** What [load_memory_variables] puts under the memory key. *)
Inductive payload :=
| Messages (l : list (gmap string string))
| Text (s : string).

Definition _format_as_messages (context : string)
  : list (gmap string string) :=
  if String.eqb context "" then []
  else [ {[ "role" := "system";
            "content" := "Relevant context:" +:+ newline +:+ context ]} ].

Section Methods.
Variable B : Backend.

Definition load_memory_variables (inputs : gmap string pyval)
  : Py MemphoraLangChain (gmap string payload) :=
  self <~ gets id ;;
  let query := py_get inputs (input_key self) (VStr "") in
  if negb (py_truthy query) then
    ret {[ memory_key self :=
             if return_messages self then Messages [] else Text "" ]}
  else
    context <~ Memphora.get_context B query 10 ;;
    if return_messages self then
      ret {[ memory_key self := Messages (_format_as_messages context) ]}
    else
      ret {[ memory_key self := Text context ]}.

Definition save_context (inputs outputs : gmap string pyval)
  : Py MemphoraLangChain unit :=
  self <~ gets id ;;
  let human_input := py_get inputs (input_key self) (VStr "") in
  let ai_output := py_get outputs (output_key self) (VStr "") in
  if py_truthy (py_and human_input ai_output) then
    Memphora.store_conversation human_input ai_output
  else ret tt.

Definition clear : Py MemphoraLangChain unit := Memphora.clear.
End Methods.

End LangChain.

(** ** LlamaIndex integration *)

Module LlamaIndex.

Record MemphoraLlamaIndex := {
  memphora : list call;
  token_limit : Z;
  _chat_history : list (gmap string string)
}.

#[global] Instance client : Client MemphoraLlamaIndex := {
  client_calls := memphora;
  with_calls t self :=
    {| memphora := t; token_limit := token_limit self;
       _chat_history := _chat_history self |}
}.

Definition with_chat_history (h : list (gmap string string))
    (self : MemphoraLlamaIndex) : MemphoraLlamaIndex :=
  {| memphora := memphora self; token_limit := token_limit self;
     _chat_history := h |}.

Definition init (token_limit : Z) : MemphoraLlamaIndex :=
  {| memphora := []; token_limit := token_limit; _chat_history := [] |}.

(** The two-entry dict of a chat message. *)
Definition chat_message (role content : string) : gmap string string :=
  {[ "role" := role; "content" := content ]}.

Section Methods.
Variable B : Backend.

Definition get (query : option string) (limit : Z)
  : Py MemphoraLlamaIndex string :=
  match query with
  | Some q =>
      if negb (String.eqb q "") then Memphora.get_context B (VStr q) limit
      else ret ""
  | None => ret ""
  end.

Definition put (user_message assistant_message : string)
  : Py MemphoraLlamaIndex unit :=
  Memphora.store_conversation (VStr user_message) (VStr assistant_message) ;;;
  modify (λ self, with_chat_history
    (_chat_history self ++ [chat_message "user" user_message]) self) ;;;
  modify (λ self, with_chat_history
    (_chat_history self ++ [chat_message "assistant" assistant_message])
    self).

Definition get_all : Py MemphoraLlamaIndex (list (gmap string string)) :=
  gets _chat_history.

Definition reset : Py MemphoraLlamaIndex unit :=
  modify (with_chat_history []).

(** The body of the loop of [set], at index [i]. *)
Definition set_step (messages : list (gmap string string)) (i : Z)
  : Py MemphoraLlamaIndex unit :=
  m_i <~ py_index messages i ;;
  role_i <~ py_getitem m_i "role" ;;
  if String.eqb role_i "user" then
    m_j <~ py_index messages (i + 1) ;;
    role_j <~ py_getitem m_j "role" ;;
    if String.eqb role_j "assistant" then
      m_i' <~ py_index messages i ;;
      content_i <~ py_getitem m_i' "content" ;;
      m_j' <~ py_index messages (i + 1) ;;
      content_j <~ py_getitem m_j' "content" ;;
      Memphora.store_conversation (VStr content_i) (VStr content_j)
    else ret tt
  else ret tt.

Definition set (messages : list (gmap string string))
  : Py MemphoraLlamaIndex unit :=
  modify (with_chat_history messages) ;;;
  for_each (py_range 0 (Z.of_nat (length messages) - 1) 2)
           (set_step messages).
End Methods.

End LlamaIndex.

(** ** CrewAI integration *)

Module CrewAI.

(** A per-agent handle.  Its [memphora] attribute is the crew's client,
    shared by reference, and is therefore not a field here. *)
Module AgentMemory.
Record MemphoraAgentMemory := {
  agent_id : string;
  crew_id : string
}.
End AgentMemory.

(** A reference to a handle object: its position in the store of handles
    allocated so far.  Two references are the same object exactly when
    they are equal. *)
Definition ref := nat.

(** The crew adapter together with [handles], the store of the
    [MemphoraAgentMemory] objects it has constructed. *)
Record MemphoraCrewAI := {
  memphora : list call;
  crew_id : string;
  _agent_memories : gmap string ref;
  handles : list AgentMemory.MemphoraAgentMemory
}.

#[global] Instance client : Client MemphoraCrewAI := {
  client_calls := memphora;
  with_calls t self :=
    {| memphora := t; crew_id := crew_id self;
       _agent_memories := _agent_memories self; handles := handles self |}
}.

Definition init (crew_id : string) : MemphoraCrewAI :=
  {| memphora := []; crew_id := crew_id; _agent_memories := ∅;
     handles := [] |}.

(** [MemphoraAgentMemory(...)]: a new object, distinct from all others. *)
Definition new_handle (h : AgentMemory.MemphoraAgentMemory)
  : Py MemphoraCrewAI ref :=
  λ self,
    (Ret (length (handles self)),
     {| memphora := memphora self; crew_id := crew_id self;
        _agent_memories := _agent_memories self;
        handles := handles self ++ [h] |}).

(** [self._agent_memories[agent_id] = r]. *)
Definition set_agent_memory (agent_id : string) (r : ref)
  : Py MemphoraCrewAI unit :=
  modify (λ self,
    {| memphora := memphora self; crew_id := crew_id self;
       _agent_memories := <[agent_id := r]> (_agent_memories self);
       handles := handles self |}).

Definition for_agent (agent_id : string) : Py MemphoraCrewAI ref :=
  self <~ gets id ;;
  match _agent_memories self !! agent_id with
  | None =>
      r <~ new_handle {| AgentMemory.agent_id := agent_id;
                         AgentMemory.crew_id := crew_id self |} ;;
      set_agent_memory agent_id r
  | Some _ => ret tt
  end ;;;
  self' <~ gets id ;;
  py_getitem (_agent_memories self') agent_id.

(** The adapter after a run of [for_agent] calls, results dropped. *)
Definition after_calls (agent_ids : list string) (self : MemphoraCrewAI)
  : MemphoraCrewAI :=
  foldl (λ s a, snd (for_agent a s)) self agent_ids.

End CrewAI.

(** ** AutoGen integration *)

Module AutoGen.

Record MemphoraAutoGen := {
  memphora : list call;
  session_id : string;
  track_escalations : bool;
  _message_buffer : list (gmap string string)
}.

#[global] Instance client : Client MemphoraAutoGen := {
  client_calls := memphora;
  with_calls t self :=
    {| memphora := t; session_id := session_id self;
       track_escalations := track_escalations self;
       _message_buffer := _message_buffer self |}
}.

Definition with_message_buffer (b : list (gmap string string))
    (self : MemphoraAutoGen) : MemphoraAutoGen :=
  {| memphora := memphora self; session_id := session_id self;
     track_escalations := track_escalations self; _message_buffer := b |}.

Definition init (session_id : string) (track_escalations : bool)
  : MemphoraAutoGen :=
  {| memphora := []; session_id := session_id;
     track_escalations := track_escalations; _message_buffer := [] |}.

Definition escalation_keywords : list string :=
  ["escalate"; "human"; "supervisor"; "help needed"].

Definition message_metadata (receiver session : string)
  : gmap string pyval :=
  {[ "receiver" := VStr receiver; "session_id" := VStr session;
     "type" := VStr "message" ]}.

Definition escalation_metadata (session sender receiver : string)
  : gmap string pyval :=
  {[ "type" := VStr "escalation"; "session_id" := VStr session;
     "from_agent" := VStr sender; "to_agent" := VStr receiver ]}.

Definition _on_message (content sender receiver : string)
  : Py MemphoraAutoGen unit :=
  if String.eqb content "" then ret tt
  else
    modify (λ self, with_message_buffer
      (_message_buffer self ++
         [ {[ "content" := content; "sender" := sender;
              "receiver" := receiver ]} ]) self) ;;;
    self <~ gets id ;;
    Memphora.store_agent_memory sender content
      (message_metadata receiver (session_id self)) ;;;
    self <~ gets id ;;
    if track_escalations self then
      if existsb (λ kw, contains kw (lower content)) escalation_keywords then
        Memphora.store_agent_memory sender ("ESCALATION: " +:+ content)
          (escalation_metadata (session_id self) sender receiver)
      else ret tt
    else ret tt.

(** What an agent's [receive] is handed: a plain string or a dict. *)
Inductive message :=
| MsgStr (s : string)
| MsgDict (d : gmap string string).

(** The content [receive_with_memory] extracts from a message. *)
Definition message_content (m : message) : string :=
  match m with
  | MsgStr s => s
  | MsgDict d => py_get d "content" ""
  end.

(** The logging half of [receive_with_memory]; [sender_name] is the
    sender's [name] attribute when it has one.  The forwarding to the
    original [receive] belongs to the host agent. *)
Definition receive_with_memory (agent_name : string) (m : message)
    (sender_name : option string) : Py MemphoraAutoGen unit :=
  _on_message (message_content m) (default "unknown" sender_name) agent_name.

(** [sep.join(items)]: every item must be a [str]. *)
Fixpoint py_join {S} (sep : string) (items : list pyval) (acc : list string)
  : Py S string :=
  match items with
  | [] => ret (join sep acc)
  | VStr s :: rest => py_join sep rest (acc ++ [s])
  | _ :: _ => raise TypeError
  end.

(** One turn of the loop that fills [context_lines]. *)
Definition context_line (fact : fact) : pyval :=
  match fact with
  | FactDict d => py_get d "text" (VStr "")
  | FactVal v => VStr (py_str v)
  end.

Section Methods.
Variable B : Backend.

Definition get_context (query : string) (agent_id : option string)
    (limit : Z) : Py MemphoraAutoGen string :=
  facts <~ match agent_id with
           | Some a =>
               if negb (String.eqb a "") then
                 result <~ Memphora.search_agent_memories B a query limit ;;
                 ret (py_get result "facts" [])
               else
                 result <~ Memphora.search B query limit ;;
                 ret (py_get result "facts" [])
           | None =>
               result <~ Memphora.search B query limit ;;
               ret (py_get result "facts" [])
           end ;;
  match facts with
  | [] => ret ""
  | _ =>
      let context_lines :=
        foldl (λ (lines : list pyval) fact, lines ++ [context_line fact])
              [] facts in
      py_join newline context_lines []
  end.

Definition get_escalations (limit : Z)
  : Py MemphoraAutoGen (list fact) :=
  result <~ Memphora.search B "ESCALATION" limit ;;
  ret (py_get result "facts" []).

Definition get_conversation_history
  : Py MemphoraAutoGen (list (gmap string string)) :=
  gets _message_buffer.

Definition clear_session : Py MemphoraAutoGen unit :=
  modify (with_message_buffer []).
End Methods.

End AutoGen.

(** ** Vocabulary of the specification *)

(** A value is non-empty when it is none of Python's empty values of its
    type: [None], [False], [0], the empty string. *)
Definition nonempty_value (v : pyval) : Prop :=
  v ≠ VNone ∧ v ≠ VBool false ∧ v ≠ VInt 0 ∧ v ≠ VStr "".

(** The mapping has a non-empty value at the key. *)
Definition present_nonempty (m : gmap string pyval) (k : string) : Prop :=
  ∃ v, m !! k = Some v ∧ nonempty_value v.

(** A backend that answers every context query with [context] and every
    search with [result]. *)
Definition constant_backend (context : string)
    (result : gmap string (list fact)) : Backend :=
  {| context_answer := λ _ _ _, context;
     search_answer := λ _ _ _, result;
     search_agent_answer := λ _ _ _ _, result |}.

(** A LangChain adapter built with the default keys. *)
Definition default_langchain (return_messages : bool)
  : LangChain.MemphoraLangChain :=
  LangChain.init "user123" None "history" "input" "output" return_messages
    "Human" "AI".

(** A chat message of the data model: a dict with a role and a content. *)
Definition is_chat_message (m : gmap string string) : Prop :=
  is_Some (m !! "role") ∧ is_Some (m !! "content").

(** The pair of contents at positions [(2i, 2i+1)] of [messages], when
    both positions exist and their roles are user then assistant. *)
Definition aligned_pair (messages : list (gmap string string)) (i : nat)
  : option (string * string) :=
  m ← messages !! (2 * i)%nat;
  m' ← messages !! (2 * i + 1)%nat;
  if decide (m !! "role" = Some "user" ∧ m' !! "role" = Some "assistant")
  then Some (py_get m "content" "", py_get m' "content" "")
  else None.

(** All such pairs, by increasing position. *)
Definition aligned_pairs (messages : list (gmap string string))
  : list (string * string) :=
  omap (aligned_pair messages) (seq 0 (length messages)).

Definition store_pair (p : string * string) : call :=
  store_conversation_call (VStr p.1) (VStr p.2).

Definition calls_of_pair (p : option (string * string)) : list call :=
  match p with
  | Some p => [store_pair p]
  | None => []
  end.

(** Every memoized reference leads to a handle built for its agent id
    and for the crew. *)
Definition handles_consistent (self : CrewAI.MemphoraCrewAI) : Prop :=
  ∀ a r,
    CrewAI._agent_memories self !! a = Some r →
    CrewAI.handles self !! r =
      Some {| CrewAI.AgentMemory.agent_id := a;
              CrewAI.AgentMemory.crew_id := CrewAI.crew_id self |}.

(** [kw] occurs in [s] as a substring. *)
Definition occurs_in (kw s : string) : Prop :=
  ∃ pre post, s = pre +:+ kw +:+ post.

(** Some part of [content] reads [kw] once case is ignored. *)
Definition matches_ignoring_case (kw content : string) : Prop :=
  ∃ pre w post, content = pre +:+ w +:+ post ∧ lower w = kw.

(** The buffer entry of an intercepted message. *)
Definition buffer_entry (content sender receiver : string)
  : gmap string string :=
  {[ "content" := content; "sender" := sender; "receiver" := receiver ]}.

(** The record stored for every intercepted message. *)
Definition message_record (self : AutoGen.MemphoraAutoGen)
    (content sender receiver : string) : call :=
  store_agent_memory_call sender content
    (AutoGen.message_metadata receiver (AutoGen.session_id self)).

(** The second record, stored for an escalation. *)
Definition escalation_record (self : AutoGen.MemphoraAutoGen)
    (content sender receiver : string) : call :=
  store_agent_memory_call sender ("ESCALATION: " +:+ content)
    (AutoGen.escalation_metadata (AutoGen.session_id self) sender receiver).

(** The rendering of a fact: the text field of a structured fact (empty
    when it has none), the string form of any other value. *)
Definition fact_text (f : fact) : string :=
  match f with
  | FactDict d =>
      match d !! "text" with
      | Some (VStr s) => s
      | _ => ""
      end
  | FactVal v => py_str v
  end.

(** The text field of a structured fact, when present, is a string. *)
Definition text_is_str (f : fact) : Prop :=
  match f with
  | FactDict d => ∀ v, d !! "text" = Some v → ∃ s, v = VStr s
  | FactVal _ => True
  end.

(** An agent id is given when it is neither [None] nor empty. *)
Definition given_agent (agent_id : option string) : option string :=
  match agent_id with
  | Some a => if decide (a = "") then None else Some a
  | None => None
  end.

(** The search [get_context] asks for: agent-scoped or session-wide. *)
Definition context_search (agent_id : option string) (query : string)
    (limit : Z) : call :=
  match given_agent agent_id with
  | Some a => search_agent_memories_call a query limit
  | None => search_call query limit
  end.

(** The facts of the backend's answer to that search. *)
Definition searched_facts (B : Backend) (seen : list call)
    (agent_id : option string) (query : string) (limit : Z) : list fact :=
  py_get (match given_agent agent_id with
          | Some a => search_agent_answer B seen a query limit
          | None => search_answer B seen query limit
          end) "facts" [].

(** ** Further parts of the adapters *)

(** *** The LangChain wrapper, [MemphoraLangChainMemory] *)

Module LangChainMemory.

(** The wrapper holds the integration by reference: its methods run on
    the integration object itself. *)
Definition memory_variables (memphora_integration : LangChain.MemphoraLangChain)
  : list string :=
  [LangChain.memory_key memphora_integration].

Definition load_memory_variables (B : Backend) (inputs : gmap string pyval)
  : Py LangChain.MemphoraLangChain (gmap string LangChain.payload) :=
  LangChain.load_memory_variables B inputs.

Definition save_context (inputs outputs : gmap string pyval)
  : Py LangChain.MemphoraLangChain unit :=
  LangChain.save_context inputs outputs.

Definition clear : Py LangChain.MemphoraLangChain unit := LangChain.clear.

End LangChainMemory.

(** *** The LlamaIndex wrapper, [MemphoraLlamaMemory] *)

Module LlamaMemory.

(** What the host hands to [put]: an object that may or may not have a
    [role] and a [content] attribute. *)
Record chat_object := {
  role : option string;
  content : option string
}.

Definition get (B : Backend) (input : option string)
  : Py LlamaIndex.MemphoraLlamaIndex string :=
  LlamaIndex.get B input 10.

Definition put (message : chat_object)
  : Py LlamaIndex.MemphoraLlamaIndex unit :=
  match content message, role message with
  | Some message_content, Some message_role =>
      if String.eqb message_role "assistant" then
        history <~ LlamaIndex.get_all ;;
        match history with
        | [] => ret tt
        | _ :: _ =>
            last <~ py_index history (-1) ;;
            last_role <~ py_getitem last "role" ;;
            if String.eqb last_role "user" then
              last' <~ py_index history (-1) ;;
              last_content <~ py_getitem last' "content" ;;
              LlamaIndex.put last_content message_content
            else ret tt
        end
      else ret tt
  | _, _ => ret tt
  end.

Definition reset : Py LlamaIndex.MemphoraLlamaIndex unit := LlamaIndex.reset.

End LlamaMemory.

(** A run of [put] calls, one per (user, assistant) pair. *)
Definition puts (pairs : list (string * string))
  : Py LlamaIndex.MemphoraLlamaIndex unit :=
  for_each pairs (λ p, LlamaIndex.put p.1 p.2).

(** The chat history that a run of [put] calls builds. *)
Fixpoint history_of (pairs : list (string * string))
  : list (gmap string string) :=
  match pairs with
  | [] => []
  | p :: pairs' =>
      LlamaIndex.chat_message "user" p.1 ::
      LlamaIndex.chat_message "assistant" p.2 :: history_of pairs'
  end.

(** *** Per-agent handles and the crew's shared memory *)

(** The group-level calls of the client, which the crew adapter and its
    handles issue besides those of [call]. *)
Inductive group_call :=
| store_group_memory_call (group_id content : string)
    (metadata : gmap string pyval)
| search_group_memories_call (group_id query : string) (limit : Z)
| get_group_context_call (group_id : string) (limit : Z).

(** What the backend answers to them, given the group calls before. *)
Record GroupBackend := {
  store_group_answer :
    list group_call → string → string → gmap string pyval →
    gmap string pyval;
  search_group_answer :
    list group_call → string → string → Z → gmap string (list fact);
  group_context_answer : list group_call → string → Z → string
}.

Module CrewShared.

(** The crew adapter together with the group calls issued on its client;
    these are logged beside [memphora self]. *)
Definition Crew : Type := CrewAI.MemphoraCrewAI * list group_call.

Definition issue (c : group_call) : Py Crew unit :=
  modify (λ s : Crew, (s.1, s.2 ++ [c])).

(** [metadata or {}]: the caller's dict unless it is [None] or empty. *)
Definition metadata_or_new (metadata : option (gmap string pyval))
  : gmap string pyval :=
  match metadata with
  | Some d => if Nat.eqb (size d) 0 then ∅ else d
  | None => ∅
  end.

(** [store_shared].  Besides the backend's answer it returns the
    caller's [metadata] object as the call leaves it: [meta] is that very
    object when the caller passed a non-empty dict, and the two item
    assignments then change it. *)
Definition store_shared (G : GroupBackend) (content : string)
    (metadata : option (gmap string pyval))
  : Py Crew (gmap string pyval * option (gmap string pyval)) :=
  s <~ gets id ;;
  let self := s.1 in
  let meta := metadata_or_new metadata in
  let meta := <["shared" := VBool true]> meta in
  let meta := <["crew_id" := VStr (CrewAI.crew_id self)]> meta in
  let caller :=
    match metadata with
    | Some d => if Nat.eqb (size d) 0 then Some d else Some meta
    | None => None
    end in
  issue (store_group_memory_call (CrewAI.crew_id self) content meta) ;;;
  ret (store_group_answer G s.2 (CrewAI.crew_id self) content meta, caller).

Definition search_shared (G : GroupBackend) (query : string) (limit : Z)
  : Py Crew (gmap string (list fact)) :=
  s <~ gets id ;;
  issue (search_group_memories_call (CrewAI.crew_id s.1) query limit) ;;;
  ret (search_group_answer G s.2 (CrewAI.crew_id s.1) query limit).

Definition get_crew_context (G : GroupBackend) (limit : Z)
  : Py Crew string :=
  s <~ gets id ;;
  issue (get_group_context_call (CrewAI.crew_id s.1) limit) ;;;
  ret (group_context_answer G s.2 (CrewAI.crew_id s.1) limit).

End CrewShared.

(** The methods of a handle.  A handle's fields never change, so a method
    takes the handle by value; it runs on the crew's client. *)
Module AgentMemoryMethods.

Definition search (B : Backend) (self : CrewAI.AgentMemory.MemphoraAgentMemory)
    (query : string) (limit : Z)
  : Py CrewAI.MemphoraCrewAI (gmap string (list fact)) :=
  Memphora.search_agent_memories B (CrewAI.AgentMemory.agent_id self)
    query limit.

Definition search_crew (G : GroupBackend)
    (self : CrewAI.AgentMemory.MemphoraAgentMemory)
    (query : string) (limit : Z)
  : Py CrewShared.Crew (gmap string (list fact)) :=
  s <~ gets id ;;
  CrewShared.issue
    (search_group_memories_call (CrewAI.AgentMemory.crew_id self) query
       limit) ;;;
  ret (search_group_answer G s.2 (CrewAI.AgentMemory.crew_id self) query
         limit).

End AgentMemoryMethods.

(** *** Runs of intercepted messages *)

(** One delivery: content, sender name, receiver name. *)
Definition delivery : Type := string * string * string.

Definition deliver (d : delivery) : Py AutoGen.MemphoraAutoGen unit :=
  AutoGen._on_message d.1.1 d.1.2 d.2.

(** The calls one delivery adds to the trace. *)
Definition records_of (self : AutoGen.MemphoraAutoGen) (d : delivery)
  : list call :=
  if String.eqb d.1.1 "" then []
  else
    message_record self d.1.1 d.1.2 d.2 ::
    (if AutoGen.track_escalations self &&
        existsb (λ kw, contains kw (lower d.1.1)) AutoGen.escalation_keywords
     then [escalation_record self d.1.1 d.1.2 d.2]
     else []).

(** The text field of a structured fact is absent or a string. *)
Definition text_is_strb (f : fact) : bool :=
  match f with
  | FactDict d =>
      match d !! "text" with
      | Some (VStr _) | None => true
      | Some _ => false
      end
  | FactVal _ => true
  end.

(** * Properties *)

(** ** Sanity checks of the Python primitives *)

Example py_range_examples :
  py_range 0 (-1) 2 = [] ∧ py_range 0 0 2 = [] ∧ py_range 0 1 2 = [0] ∧
  py_range 0 2 2 = [0] ∧ py_range 0 3 2 = [0; 2] ∧ py_range 0 4 2 = [0; 2].
Proof. repeat split; reflexivity. Qed.

Example lower_example : lower "Please ESCALATE now" = "please escalate now".
Proof. reflexivity. Qed.

Example contains_examples :
  contains "human" "humanity" = true ∧ contains "human" "huma" = false ∧
  contains "" "" = true.
Proof. repeat split; reflexivity. Qed.

Example join_examples :
  join newline [] = "" ∧ join newline ["a"] = "a" ∧
  join newline ["a"; "b"] = "a" +:+ newline +:+ "b".
Proof. repeat split; reflexivity. Qed.

Example py_str_examples :
  py_str (VInt (-12)) = "-12" ∧ py_str VNone = "None" ∧
  py_str (VStr "x") = "x".
Proof. repeat split; vm_compute; reflexivity. Qed.

(** ** Tactics for running adapter methods *)

#[local] Set Warnings "-clear-no-such-hyp".

Ltac py_run :=
  cbv beta iota delta
    [bind gets modify ret raise id Memphora.get_context
     Memphora.store_conversation Memphora.store_agent_memory
     Memphora.search Memphora.search_agent_memories Memphora.clear
     Memphora.issue py_getitem py_get] in *;
  cbn [fst snd client_calls with_calls LangChain.client LlamaIndex.client
       CrewAI.client AutoGen.client] in *.

Lemma nonempty_truthy v : nonempty_value v ↔ py_truthy v = true.
Proof.
  unfold nonempty_value. destruct v as [|[]|z|s]; simpl.
  - split; [intros (? & _); congruence | discriminate].
  - split; [reflexivity | intros _; repeat split; congruence].
  - split; [intros (_ & ? & _); congruence | discriminate].
  - destruct (Z.eqb_spec z 0) as [->|]; simpl.
    + split; [intros (_ & _ & ? & _); congruence | discriminate].
    + split; [reflexivity | intros _; repeat split; congruence].
  - destruct (String.eqb_spec s "") as [->|]; simpl.
    + split; [intros (_ & _ & _ & ?); congruence | discriminate].
    + split; [reflexivity | intros _; repeat split; congruence].
Qed.

Lemma nonempty_VStr s : nonempty_value (VStr s) ↔ s ≠ "".
Proof.
  rewrite nonempty_truthy. simpl.
  destruct (String.eqb_spec s ""); simpl; split; congruence.
Qed.

(** ** LangChain *)

Section LangChainProperties.
Import LangChain.
Variable B : Backend.

(** C5.  When the configured input key is absent from [inputs], or maps
    to the empty string, [load_memory_variables] returns the memory key
    mapped to the empty payload of the configured mode ([[]] in messages
    mode, [""] in string mode) and leaves the adapter, hence the trace of
    backend calls, as it was. *)
Theorem load_memory_variables_no_query
    (self : MemphoraLangChain) (inputs : gmap string pyval) :
  inputs !! input_key self = None ∨
    inputs !! input_key self = Some (VStr "") →
  load_memory_variables B inputs self =
    (Ret {[ memory_key self :=
              if return_messages self then Messages [] else Text "" ]},
     self).
Proof.
  intros Hq. unfold load_memory_variables. py_run.
  destruct Hq as [-> | ->]; reflexivity.
Qed.

(** C1.  [save_context] issues exactly one backend call, the
    [store_conversation] of the two values, when the value at the input
    key of [inputs] and the value at the output key of [outputs] are both
    present and non-empty; in every other case it issues none and the
    adapter (with its client) is left exactly as it was. *)
Theorem save_context_once_or_never
    (self : MemphoraLangChain) (inputs outputs : gmap string pyval) :
  (∀ h a,
     inputs !! input_key self = Some h →
     outputs !! output_key self = Some a →
     nonempty_value h → nonempty_value a →
     save_context inputs outputs self =
       (Ret tt,
        with_calls (memphora self ++ [store_conversation_call h a]) self))
  ∧ (¬ (present_nonempty inputs (input_key self) ∧
        present_nonempty outputs (output_key self)) →
     save_context inputs outputs self = (Ret tt, self)).
Proof.
  split.
  - intros h a Hh Ha Th Ta. apply nonempty_truthy in Th, Ta.
    unfold save_context, py_and. py_run. rewrite Hh, Ha, Th, Ta.
    reflexivity.
  - intros Hnot. unfold save_context, py_and. py_run.
    destruct (inputs !! input_key self) as [h|] eqn:Hh;
      [destruct (py_truthy h) eqn:Th | simpl];
      [ | rewrite Th; reflexivity | reflexivity].
    destruct (outputs !! output_key self) as [a|] eqn:Ha;
      [destruct (py_truthy a) eqn:Ta | simpl];
      [ | reflexivity | reflexivity].
    exfalso. apply Hnot.
    split; eexists; (split; [eassumption | by apply nonempty_truthy]).
Qed.

(** C2, as the code has it.  When the input key of [inputs] holds a
    non-empty query, [load_memory_variables] issues exactly one backend
    call, [get_context(query, limit=10)].  In string mode it returns the
    backend's context under the memory key.  In messages mode it returns
    one system-role message whose content is ["Relevant context:\n"]
    followed by the context when the context is not empty, and the empty
    list when the backend's context is the empty string. *)
Theorem load_memory_variables_query
    (self : MemphoraLangChain) (inputs : gmap string pyval)
    (query : pyval) :
  inputs !! input_key self = Some query →
  nonempty_value query →
  let context := context_answer B (memphora self) query 10 in
  load_memory_variables B inputs self =
    (Ret {[ memory_key self :=
              if return_messages self then
                if decide (context = "") then Messages []
                else Messages
                       [ {[ "role" := "system";
                            "content" :=
                              "Relevant context:" +:+ newline +:+ context ]} ]
              else Text context ]},
     with_calls (memphora self ++ [get_context_call query 10]) self).
Proof.
  intros Hq Tq context. apply nonempty_truthy in Tq.
  unfold load_memory_variables. py_run. rewrite Hq, Tq. simpl.
  fold context. unfold _format_as_messages.
  destruct (return_messages self); [ | reflexivity].
  destruct (String.eqb_spec context ""); case_decide; done.
Qed.
End LangChainProperties.

Lemma save_context_once_or_never_witness :
  LangChain.save_context {[ "input" := VStr "hi" ]}
      {[ "output" := VStr "hello" ]} (default_langchain true) =
    (Ret tt,
     with_calls [store_conversation_call (VStr "hi") (VStr "hello")]
       (default_langchain true))
  ∧ LangChain.save_context {[ "input" := VStr "hi" ]} ∅
      (default_langchain true) =
    (Ret tt, default_langchain true).
Proof.
  split.
  - apply (proj1 (save_context_once_or_never (default_langchain true)
                    {[ "input" := VStr "hi" ]}
                    {[ "output" := VStr "hello" ]}) (VStr "hi")
                 (VStr "hello")).
    + reflexivity.
    + reflexivity.
    + apply nonempty_VStr. discriminate.
    + apply nonempty_VStr. discriminate.
  - apply (proj2 (save_context_once_or_never (default_langchain true)
                    {[ "input" := VStr "hi" ]} ∅)).
    intros [_ (v & Hv & _)]. simpl in Hv. rewrite lookup_empty in Hv.
    discriminate.
Defined.

Lemma load_memory_variables_no_query_witness :
  LangChain.load_memory_variables (constant_backend "ctx" ∅)
      {[ "other" := VStr "hi" ]} (default_langchain false) =
    (Ret {[ "history" := LangChain.Text "" ]}, default_langchain false).
Proof.
  apply (load_memory_variables_no_query (constant_backend "ctx" ∅)
           (default_langchain false) {[ "other" := VStr "hi" ]}).
  left. reflexivity.
Defined.

Lemma load_memory_variables_query_witness :
  LangChain.load_memory_variables (constant_backend "likes tea" ∅)
      {[ "input" := VStr "drink?" ]} (default_langchain true) =
    (Ret {[ "history" :=
              LangChain.Messages
                [ {[ "role" := "system";
                     "content" :=
                       "Relevant context:" +:+ newline +:+ "likes tea" ]} ] ]},
     with_calls [get_context_call (VStr "drink?") 10]
       (default_langchain true)).
Proof.
  apply (load_memory_variables_query (constant_backend "likes tea" ∅)
           (default_langchain true) {[ "input" := VStr "drink?" ]}
           (VStr "drink?")).
  - reflexivity.
  - apply nonempty_VStr. discriminate.
Defined.

(** C2 as the specification words it: in messages mode a non-empty query
    always yields exactly one system message holding the context.  It
    fails on a backend whose context is the empty string: the list is
    empty. *)
Lemma load_memory_variables_single_message_counterexample :
  ¬ (∀ (B : Backend) (self : LangChain.MemphoraLangChain)
       (inputs : gmap string pyval) (query : pyval),
       LangChain.return_messages self = true →
       inputs !! LangChain.input_key self = Some query →
       nonempty_value query →
       ∃ msg pre,
         fst (LangChain.load_memory_variables B inputs self) =
           Ret {[ LangChain.memory_key self := LangChain.Messages [msg] ]}
         ∧ msg !! "role" = Some "system"
         ∧ msg !! "content" =
             Some (pre +:+
                   context_answer B (LangChain.memphora self) query 10)).
Proof.
  intros claim.
  destruct (claim (constant_backend "" ∅) (default_langchain true)
              {[ "input" := VStr "hi" ]} (VStr "hi"))
    as (msg & pre & Hret & _).
  - reflexivity.
  - reflexivity.
  - apply nonempty_VStr. discriminate.
  - assert (Hrun :
      fst (LangChain.load_memory_variables (constant_backend "" ∅)
             {[ "input" := VStr "hi" ]} (default_langchain true)) =
        Ret {[ "history" := LangChain.Messages [] ]}) by reflexivity.
    rewrite Hrun in Hret. simpl in Hret.
    assert (Hl : ({[ "history" := LangChain.Messages [] ]}
                    : gmap string LangChain.payload) !! "history" =
                 ({[ "history" := LangChain.Messages [msg] ]}
                    : gmap string LangChain.payload) !! "history").
    { congruence. }
    rewrite !lookup_singleton_eq in Hl. discriminate.
Qed.

(** ** LlamaIndex *)

Section LlamaIndexProperties.
Import LlamaIndex.

(** C9.  For every two strings, empty or not, [put] issues exactly one
    backend call, the [store_conversation] of the pair, and appends to
    the chat history a user entry followed by an assistant entry; there
    is no emptiness check. *)
Theorem put_stores_unconditionally
    (self : MemphoraLlamaIndex) (user_message assistant_message : string) :
  put user_message assistant_message self =
    (Ret tt,
     {| memphora :=
          memphora self ++
            [store_conversation_call (VStr user_message)
               (VStr assistant_message)];
        token_limit := token_limit self;
        _chat_history :=
          _chat_history self ++
            [chat_message "user" user_message;
             chat_message "assistant" assistant_message] |}).
Proof.
  unfold put. py_run. unfold with_chat_history. simpl.
  by rewrite <- app_assoc.
Qed.

Lemma py_index_lookup {A} (l : list A) (i : nat) (x : A)
    (s : MemphoraLlamaIndex) :
  l !! i = Some x → py_index l (Z.of_nat i) s = (Ret x, s).
Proof.
  intros Hx. pose proof (lookup_lt_Some _ _ _ Hx) as Hlt.
  unfold py_index.
  replace (Z.of_nat i <? 0) with false by (symmetry; apply Z.ltb_ge; lia).
  replace (0 <=? Z.of_nat i) with true by (symmetry; apply Z.leb_le; lia).
  replace (Z.of_nat i <? Z.of_nat (length l)) with true
    by (symmetry; apply Z.ltb_lt; lia).
  simpl. by rewrite Nat2Z.id, Hx.
Qed.

Lemma with_calls_same (s : MemphoraLlamaIndex) :
  with_calls (memphora s ++ []) s = s.
Proof. destruct s. simpl. by rewrite app_nil_r. Qed.

Lemma set_step_aligned (messages : list (gmap string string)) (k : nat)
    (s : MemphoraLlamaIndex) :
  Forall is_chat_message messages →
  (2 * k + 1 < length messages)%nat →
  set_step messages (0 + Z.of_nat k * 2) s =
    (Ret tt,
     with_calls (memphora s ++ calls_of_pair (aligned_pair messages k)) s).
Proof.
  intros Hwf Hk.
  destruct (lookup_lt_is_Some_2 messages (2 * k)%nat) as [m Hm]; [lia | ].
  destruct (lookup_lt_is_Some_2 messages (2 * k + 1)%nat) as [m' Hm'];
    [lia | ].
  destruct (Forall_lookup_1 _ _ _ _ Hwf Hm) as [[r Hr] [c Hc]].
  destruct (Forall_lookup_1 _ _ _ _ Hwf Hm') as [[r' Hr'] [c' Hc']].
  replace (0 + Z.of_nat k * 2) with (Z.of_nat (2 * k)) by lia.
  unfold set_step.
  replace (Z.of_nat (2 * k) + 1) with (Z.of_nat (2 * k + 1)) by lia.
  unfold aligned_pair. rewrite Hm, Hm'. simpl.
  unfold bind at 1. rewrite (py_index_lookup _ _ _ _ Hm).
  py_run. rewrite Hr.
  destruct (String.eqb_spec r "user") as [-> | Hne].
  - rewrite (py_index_lookup _ _ _ _ Hm'), Hr'.
    destruct (String.eqb_spec r' "assistant") as [-> | Hne'].
    + rewrite (py_index_lookup _ _ _ _ Hm), Hc.
      rewrite (py_index_lookup _ _ _ _ Hm'), Hc'.
      rewrite decide_True by done.
      reflexivity.
    + rewrite decide_False by (intros [_ ?]; congruence).
      simpl. f_equal. symmetry. apply with_calls_same.
  - rewrite decide_False by (intros [? _]; congruence).
    simpl. f_equal. symmetry. apply with_calls_same.
Qed.

Lemma set_loop (messages : list (gmap string string)) (ks : list nat) :
  Forall is_chat_message messages →
  Forall (λ k, (2 * k + 1 < length messages)%nat) ks →
  ∀ s : MemphoraLlamaIndex,
    for_each ((λ k : nat, 0 + Z.of_nat k * 2) <$> ks) (set_step messages) s
    = (Ret tt,
       with_calls
         (memphora s ++ (store_pair <$> omap (aligned_pair messages) ks))
         s).
Proof.
  intros Hwf Hks. induction Hks as [ | k ks Hk _ IH]; intros s.
  - simpl. unfold ret. f_equal. symmetry. apply with_calls_same.
  - simpl for_each. unfold bind at 1.
    rewrite (set_step_aligned _ _ _ Hwf Hk), IH. simpl.
    destruct (aligned_pair messages k); simpl;
      by rewrite <- ?app_assoc, ?app_nil_r.
Qed.

Lemma py_range_pairs (n : nat) :
  py_range 0 (Z.of_nat n - 1) 2 =
    (λ k : nat, 0 + Z.of_nat k * 2) <$> seq 0 (n / 2)%nat.
Proof.
  unfold py_range. do 2 f_equal.
  replace (Z.of_nat n - 1 - 0 + 2 - 1) with (Z.of_nat n) by lia.
  change 2 with (Z.of_nat 2). by rewrite <- Nat2Z.inj_div, Nat2Z.id.
Qed.

Lemma aligned_pair_beyond (messages : list (gmap string string)) (i : nat) :
  (length messages / 2 ≤ i)%nat → aligned_pair messages i = None.
Proof.
  intros Hi. unfold aligned_pair.
  assert (length messages ≤ 2 * i + 1)%nat as Hlen.
  { pose proof (Nat.div_mod_eq (length messages) 2) as Hd.
    pose proof (Nat.mod_upper_bound (length messages) 2). lia. }
  rewrite (lookup_ge_None_2 messages (2 * i + 1)) by lia.
  by destruct (messages !! (2 * i)%nat).
Qed.

Lemma aligned_pairs_tail (messages : list (gmap string string))
    (len start : nat) :
  (length messages / 2 ≤ start)%nat →
  omap (aligned_pair messages) (seq start len) = [].
Proof.
  revert start. induction len as [ | len IH]; intros start Hstart; [done | ].
  simpl. rewrite aligned_pair_beyond by done. apply IH. lia.
Qed.

Lemma aligned_pairs_half (messages : list (gmap string string)) :
  aligned_pairs messages =
    omap (aligned_pair messages) (seq 0 (length messages / 2)%nat).
Proof.
  unfold aligned_pairs.
  assert (length messages =
            (length messages / 2 + (length messages - length messages / 2))%nat)
    as Hsplit.
  { pose proof (Nat.div_mod_eq (length messages) 2). lia. }
  rewrite Hsplit at 1. rewrite seq_app, omap_app.
  rewrite (aligned_pairs_tail _ _ (0 + length messages / 2))
    by apply Nat.le_refl.
  apply app_nil_r.
Qed.

(** C3.  [set] replaces the chat history by [messages] and issues, in
    order, one [store_conversation] for each position pair [(2i, 2i+1)]
    whose roles are user then assistant, and no other call; pairs in any
    other role order are skipped.  On the three messages user "hi",
    assistant "hey", user "bye" it stores the single pair ("hi", "hey"). *)
Theorem set_stores_aligned_pairs :
  (∀ (self : MemphoraLlamaIndex) (messages : list (gmap string string)),
     Forall is_chat_message messages →
     set messages self =
       (Ret tt,
        {| memphora :=
             memphora self ++ (store_pair <$> aligned_pairs messages);
           token_limit := token_limit self;
           _chat_history := messages |}))
  ∧ (∀ self : MemphoraLlamaIndex,
       set [chat_message "user" "hi"; chat_message "assistant" "hey";
            chat_message "user" "bye"] self =
         (Ret tt,
          {| memphora :=
               memphora self ++
                 [store_conversation_call (VStr "hi") (VStr "hey")];
             token_limit := token_limit self;
             _chat_history :=
               [chat_message "user" "hi"; chat_message "assistant" "hey";
                chat_message "user" "bye"] |})).
Proof.
  assert (∀ (self : MemphoraLlamaIndex) messages,
     Forall is_chat_message messages →
     set messages self =
       (Ret tt,
        {| memphora :=
             memphora self ++ (store_pair <$> aligned_pairs messages);
           token_limit := token_limit self;
           _chat_history := messages |})) as Hgen.
  { intros self messages Hwf. unfold set.
    rewrite py_range_pairs. unfold bind at 1, modify.
    rewrite set_loop; [ | done | ].
    - by rewrite aligned_pairs_half.
    - apply Forall_forall. intros k Hk. apply elem_of_seq in Hk.
      pose proof (Nat.div_mod_eq (length messages) 2).
      pose proof (Nat.mod_upper_bound (length messages) 2). lia. }
  split; [exact Hgen | ].
  intros self. rewrite Hgen.
  - reflexivity.
  - repeat constructor; unfold chat_message;
      rewrite ?lookup_insert_eq; try done;
      by rewrite lookup_insert_ne, lookup_singleton_eq.
Qed.
End LlamaIndexProperties.

Lemma set_stores_aligned_pairs_witness :
  LlamaIndex.set
    [LlamaIndex.chat_message "assistant" "a"; LlamaIndex.chat_message "user" "b";
     LlamaIndex.chat_message "user" "c"; LlamaIndex.chat_message "assistant" "d"]
    (LlamaIndex.init 3000) =
  (Ret tt,
   {| LlamaIndex.memphora := [store_conversation_call (VStr "c") (VStr "d")];
      LlamaIndex.token_limit := 3000;
      LlamaIndex._chat_history :=
        [LlamaIndex.chat_message "assistant" "a";
         LlamaIndex.chat_message "user" "b";
         LlamaIndex.chat_message "user" "c";
         LlamaIndex.chat_message "assistant" "d"] |}).
Proof.
  apply (proj1 set_stores_aligned_pairs (LlamaIndex.init 3000)
           [LlamaIndex.chat_message "assistant" "a";
            LlamaIndex.chat_message "user" "b";
            LlamaIndex.chat_message "user" "c";
            LlamaIndex.chat_message "assistant" "d"]).
  repeat constructor; eexists; reflexivity.
Defined.

(** Outside the data model: a dict without a role makes [set] raise after
    the history has been replaced. *)
Example set_raises_on_missing_role :
  LlamaIndex.set [∅; ∅] (LlamaIndex.init 3000) =
    (Raise (KeyError "role"),
     {| LlamaIndex.memphora := []; LlamaIndex.token_limit := 3000;
        LlamaIndex._chat_history := [∅; ∅] |}).
Proof. reflexivity. Qed.

(** ** CrewAI *)

Section CrewAIProperties.
Import CrewAI.

Lemma for_agent_known (self : MemphoraCrewAI) (a : string) (r : ref) :
  _agent_memories self !! a = Some r → for_agent a self = (Ret r, self).
Proof.
  intros Hr. unfold for_agent. py_run. rewrite Hr. py_run.
  by rewrite Hr.
Qed.

Lemma for_agent_new (self : MemphoraCrewAI) (a : string) :
  _agent_memories self !! a = None →
  for_agent a self =
    (Ret (length (handles self)),
     {| memphora := memphora self; crew_id := crew_id self;
        _agent_memories :=
          <[a := length (handles self)]> (_agent_memories self);
        handles :=
          handles self ++
            [{| AgentMemory.agent_id := a;
                AgentMemory.crew_id := crew_id self |}] |}).
Proof.
  intros Hr. unfold for_agent. py_run. rewrite Hr.
  unfold new_handle, set_agent_memory. py_run. simpl.
  by rewrite lookup_insert_eq.
Qed.

Lemma handles_consistent_init (crew : string) :
  handles_consistent (init crew).
Proof. intros a r Hr. simpl in Hr. by rewrite lookup_empty in Hr. Qed.

Lemma for_agent_consistent (self : MemphoraCrewAI) (a : string) :
  handles_consistent self → handles_consistent (snd (for_agent a self)).
Proof.
  intros Hinv. destruct (_agent_memories self !! a) as [r | ] eqn:Hr.
  - by rewrite (for_agent_known _ _ _ Hr).
  - rewrite (for_agent_new _ _ Hr). intros b rb. simpl.
    destruct (decide (a = b)) as [<- | Hne].
    + rewrite lookup_insert_eq. intros [= <-].
      by rewrite lookup_app_r, Nat.sub_diag.
    + rewrite lookup_insert_ne by done. intros Hb.
      pose proof (Hinv _ _ Hb) as Hh.
      by rewrite lookup_app_l by (by eapply lookup_lt_Some).
Qed.

Lemma for_agent_keeps (self : MemphoraCrewAI) (a b : string) (r : ref) :
  _agent_memories self !! b = Some r →
  _agent_memories (snd (for_agent a self)) !! b = Some r.
Proof.
  intros Hb. destruct (_agent_memories self !! a) as [ra | ] eqn:Hr.
  - by rewrite (for_agent_known _ _ _ Hr).
  - rewrite (for_agent_new _ _ Hr). simpl.
    rewrite lookup_insert_ne; [done | congruence].
Qed.

Lemma for_agent_crew_id (self : MemphoraCrewAI) (a : string) :
  crew_id (snd (for_agent a self)) = crew_id self.
Proof.
  destruct (_agent_memories self !! a) as [ra | ] eqn:Hr.
  - by rewrite (for_agent_known _ _ _ Hr).
  - by rewrite (for_agent_new _ _ Hr).
Qed.

Lemma for_agent_dom (self : MemphoraCrewAI) (a : string) :
  dom (_agent_memories (snd (for_agent a self))) =
    dom (_agent_memories self) ∪ {[a]}.
Proof.
  destruct (_agent_memories self !! a) as [ra | ] eqn:Hr.
  - rewrite (for_agent_known _ _ _ Hr). simpl.
    apply (elem_of_dom_2 (D := gset string)) in Hr. set_solver.
  - rewrite (for_agent_new _ _ Hr). simpl. rewrite dom_insert_L.
    set_solver.
Qed.

Lemma after_calls_consistent (ids : list string) (self : MemphoraCrewAI) :
  handles_consistent self → handles_consistent (after_calls ids self).
Proof.
  revert self. induction ids as [ | a ids IH]; intros self Hinv; [done | ].
  apply IH, for_agent_consistent, Hinv.
Qed.

Lemma after_calls_keeps (ids : list string) (self : MemphoraCrewAI)
    (b : string) (r : ref) :
  _agent_memories self !! b = Some r →
  _agent_memories (after_calls ids self) !! b = Some r.
Proof.
  revert self. induction ids as [ | a ids IH]; intros self Hb; [done | ].
  apply IH, for_agent_keeps, Hb.
Qed.

Lemma after_calls_crew_id (ids : list string) (self : MemphoraCrewAI) :
  crew_id (after_calls ids self) = crew_id self.
Proof.
  revert self. induction ids as [ | a ids IH]; intros self; [done | ].
  simpl. by rewrite IH, for_agent_crew_id.
Qed.

Lemma after_calls_dom (ids : list string) (self : MemphoraCrewAI) :
  dom (_agent_memories (after_calls ids self)) =
    dom (_agent_memories self) ∪ list_to_set ids.
Proof.
  revert self. induction ids as [ | a ids IH]; intros self; simpl.
  - set_solver.
  - rewrite IH, for_agent_dom. set_solver.
Qed.

Lemma for_agent_memo (self : MemphoraCrewAI) (a : string) :
  ∃ r, fst (for_agent a self) = Ret r
       ∧ _agent_memories (snd (for_agent a self)) !! a = Some r.
Proof.
  destruct (_agent_memories self !! a) as [r | ] eqn:Hr.
  - exists r. by rewrite (for_agent_known _ _ _ Hr).
  - exists (length (handles self)). rewrite (for_agent_new _ _ Hr). simpl.
    by rewrite lookup_insert_eq.
Qed.

(** C8.  On a crew adapter that has served any earlier [for_agent]
    calls, [for_agent a] returns a reference [r] to a handle whose agent
    id is [a] and whose crew id is the crew's.  If [a] was never asked
    for before, the handle is constructed by this call (a new object is
    added); if it was, nothing is constructed and the adapter is
    unchanged.  After any further [for_agent] calls, for [a] or for
    other ids, [for_agent a] returns the same reference [r], changes
    nothing, and [r] still leads to the same handle. *)
Theorem for_agent_memoized (crew : string) (before : list string)
    (a : string) :
  let s0 := after_calls before (init crew) in
  let s1 := snd (for_agent a s0) in
  let h := {| AgentMemory.agent_id := a; AgentMemory.crew_id := crew |} in
  ∃ r : ref,
    fst (for_agent a s0) = Ret r
    ∧ handles s1 !! r = Some h
    ∧ (a ∉ before →
       r = length (handles s0) ∧ handles s1 = handles s0 ++ [h])
    ∧ (a ∈ before → s1 = s0)
    ∧ ∀ between : list string,
        let s2 := after_calls between s1 in
        for_agent a s2 = (Ret r, s2) ∧ handles s2 !! r = Some h.
Proof.
  intros s0 s1 h.
  assert (handles_consistent s0) as Hs0
    by apply after_calls_consistent, handles_consistent_init.
  assert (crew_id s0 = crew) as Hcrew0 by apply after_calls_crew_id.
  assert (handles_consistent s1) as Hs1 by by apply for_agent_consistent.
  assert (crew_id s1 = crew) as Hcrew1
    by (unfold s1; by rewrite for_agent_crew_id).
  assert (dom (_agent_memories s0) = list_to_set before) as Hdom.
  { unfold s0. rewrite after_calls_dom. simpl. set_solver. }
  destruct (for_agent_memo s0 a) as (r & Hret & Hmemo). fold s1 in Hmemo.
  exists r. split; [done | ].
  split; [by rewrite (Hs1 _ _ Hmemo), Hcrew1 | ].
  split; [ | split].
  - intros Hnew.
    assert (_agent_memories s0 !! a = None) as Hnone.
    { apply (not_elem_of_dom (D := gset string)). rewrite Hdom.
      by rewrite elem_of_list_to_set. }
    unfold s1 in *. rewrite (for_agent_new _ _ Hnone) in Hret |- *.
    simpl in *. rewrite Hcrew0. split; [by injection Hret | done].
  - intros Hold.
    assert (is_Some (_agent_memories s0 !! a)) as [r0 Hr0].
    { apply (elem_of_dom (D := gset string)). rewrite Hdom.
      by rewrite elem_of_list_to_set. }
    unfold s1. by rewrite (for_agent_known _ _ _ Hr0).
  - intros between s2.
    assert (_agent_memories s2 !! a = Some r) as Hr2
      by by apply after_calls_keeps.
    split; [by apply for_agent_known | ].
    assert (handles_consistent s2) as Hs2 by by apply after_calls_consistent.
    rewrite (Hs2 _ _ Hr2). unfold s2. by rewrite after_calls_crew_id, Hcrew1.
Qed.
End CrewAIProperties.

Lemma for_agent_memoized_witness :
  ∃ r : CrewAI.ref,
    fst (CrewAI.for_agent "writer"
           (CrewAI.after_calls ["researcher"] (CrewAI.init "my-crew"))) =
      Ret r
    ∧ ∀ between : list string,
        fst (CrewAI.for_agent "writer"
               (CrewAI.after_calls between
                  (snd (CrewAI.for_agent "writer"
                          (CrewAI.after_calls ["researcher"]
                             (CrewAI.init "my-crew")))))) =
          Ret r.
Proof.
  destruct (for_agent_memoized "my-crew" ["researcher"] "writer")
    as (r & Hret & _ & _ & _ & Hlater).
  exists r. split; [exact Hret | ].
  intros between. destruct (Hlater between) as [Hsame _].
  rewrite Hsame. reflexivity.
Defined.

(** Two calls in a row on a fresh adapter: the same reference, one handle. *)
Example for_agent_twice :
  let s1 := snd (CrewAI.for_agent "a" (CrewAI.init "crew")) in
  CrewAI.for_agent "a" (CrewAI.init "crew") = (Ret 0%nat, s1)
  ∧ CrewAI.for_agent "a" s1 = (Ret 0%nat, s1)
  ∧ CrewAI.handles s1 =
      [{| CrewAI.AgentMemory.agent_id := "a";
          CrewAI.AgentMemory.crew_id := "crew" |}].
Proof. vm_compute. repeat split; reflexivity. Qed.

(** ** Substrings and lower case *)

Lemma lower_app (a b : string) : lower (a +:+ b) = lower a +:+ lower b.
Proof. induction a as [ | c a IH]; simpl; [done | by rewrite IH]. Qed.

Lemma prefix_app (kw post : string) : String.prefix kw (kw +:+ post) = true.
Proof.
  induction kw as [ | c kw IH]; simpl; [by destruct post | ].
  by destruct (ascii_dec c c).
Qed.

Lemma prefix_split (kw s : string) :
  String.prefix kw s = true → ∃ post, s = kw +:+ post.
Proof.
  revert kw. induction s as [ | c s IH]; intros [ | k kw]; simpl; try done.
  - by exists "".
  - by exists (String c s).
  - destruct (ascii_dec k c) as [-> | ]; [ | done].
    intros [post ->]%IH. by exists post.
Qed.

Lemma contains_unfold (kw s : string) :
  contains kw s =
    if String.prefix kw s then true
    else match s with
         | EmptyString => false
         | String _ s' => contains kw s'
         end.
Proof. by destruct s. Qed.

Lemma contains_occurs (kw s : string) :
  contains kw s = true ↔ occurs_in kw s.
Proof.
  split.
  - induction s as [ | c s IH]; rewrite contains_unfold.
    + destruct (String.prefix kw "") eqn:Hp; [ | done].
      destruct (prefix_split _ _ Hp) as [post Hpost]. by exists "", post.
    + destruct (String.prefix kw (String c s)) eqn:Hp.
      * destruct (prefix_split _ _ Hp) as [post Hpost]. by exists "", post.
      * intros (pre & post & ->)%IH. by exists (String c pre), post.
  - intros (pre & post & ->).
    induction pre as [ | c pre IH].
    + change ("" +:+ kw +:+ post) with (kw +:+ post).
      by rewrite contains_unfold, prefix_app.
    + change (String c pre +:+ kw +:+ post)
        with (String c (pre +:+ kw +:+ post)).
      rewrite contains_unfold.
      destruct (String.prefix kw _); [done | exact IH].
Qed.

Lemma lower_split (content pre rest : string) :
  lower content = pre +:+ rest →
  ∃ a b, content = a +:+ b ∧ lower a = pre ∧ lower b = rest.
Proof.
  revert content. induction pre as [ | c pre IH]; intros content Hl.
  - by exists "", content.
  - destruct content as [ | c' content]; [done | ].
    simpl in Hl. injection Hl as Hc Hl.
    destruct (IH _ Hl) as (a & b & -> & <- & <-).
    exists (String c' a), b. simpl. by rewrite Hc.
Qed.

Lemma matches_ignoring_case_lower (kw content : string) :
  matches_ignoring_case kw content ↔ occurs_in kw (lower content).
Proof.
  split.
  - intros (pre & w & post & -> & <-).
    exists (lower pre), (lower post). by rewrite !lower_app.
  - intros (pre & post & Hl).
    destruct (lower_split _ _ _ Hl) as (a & rest & -> & _ & Hrest).
    destruct (lower_split _ _ _ Hrest) as (w & b & -> & Hw & _).
    by exists a, w, b.
Qed.

(** ** AutoGen *)

Section AutoGenProperties.
Import AutoGen.

Lemma keyword_scan (content : string) :
  existsb (λ kw, contains kw (lower content)) escalation_keywords = true
  ↔ ∃ kw, kw ∈ escalation_keywords ∧ occurs_in kw (lower content).
Proof.
  rewrite existsb_exists. split; intros (kw & Hin & Hkw); exists kw.
  - by rewrite list_elem_of_In, <- contains_occurs.
  - by rewrite <- list_elem_of_In, contains_occurs.
Qed.

(** What [_on_message] does with a non-empty content, in one equation. *)
Lemma on_message_run (self : MemphoraAutoGen)
    (content sender receiver : string) :
  content ≠ "" →
  _on_message content sender receiver self =
    (Ret tt,
     {| memphora :=
          memphora self ++
            message_record self content sender receiver ::
            (if track_escalations self &&
                existsb (λ kw, contains kw (lower content))
                  escalation_keywords
             then [escalation_record self content sender receiver]
             else []);
        session_id := session_id self;
        track_escalations := track_escalations self;
        _message_buffer :=
          _message_buffer self ++ [buffer_entry content sender receiver] |}).
Proof.
  intros Hne. unfold _on_message.
  destruct (String.eqb_spec content "") as [ | _]; [done | ].
  set (scan := existsb (λ kw, contains kw (lower content))
                 escalation_keywords).
  py_run. unfold with_message_buffer.
  cbn [memphora session_id track_escalations _message_buffer].
  destruct (track_escalations self), scan;
    cbn [andb memphora session_id track_escalations _message_buffer];
    by rewrite <- ?app_assoc.
Qed.

(** C7.  An intercepted message whose extracted content is empty (an
    empty string, a dict with an empty content or without one) changes
    nothing: the message buffer and the trace of backend calls are as
    before. *)
Theorem empty_content_is_dropped (self : MemphoraAutoGen)
    (agent_name : string) (m : message) (sender_name : option string) :
  message_content m = "" →
  receive_with_memory agent_name m sender_name self = (Ret tt, self).
Proof.
  intros Hempty. unfold receive_with_memory, _on_message.
  by rewrite Hempty.
Qed.

(** C4.  With escalation tracking enabled, a message whose non-empty
    content matches one of the keywords "escalate", "human",
    "supervisor", "help needed", case ignored, makes [_on_message] issue
    exactly two backend calls, both [store_agent_memory] for the sender:
    first the original content with metadata type "message", then the
    content prefixed with "ESCALATION: " with metadata type "escalation",
    from_agent the sender and to_agent the receiver. *)
Theorem escalation_stores_two_records (self : MemphoraAutoGen)
    (content sender receiver : string) :
  track_escalations self = true →
  content ≠ "" →
  (∃ kw, kw ∈ ["escalate"; "human"; "supervisor"; "help needed"]
         ∧ matches_ignoring_case kw content) →
  ∃ message_meta escalation_meta : gmap string pyval,
    memphora (snd (_on_message content sender receiver self)) =
      memphora self ++
        [store_agent_memory_call sender content message_meta;
         store_agent_memory_call sender ("ESCALATION: " +:+ content)
           escalation_meta]
    ∧ message_meta !! "type" = Some (VStr "message")
    ∧ escalation_meta !! "type" = Some (VStr "escalation")
    ∧ escalation_meta !! "from_agent" = Some (VStr sender)
    ∧ escalation_meta !! "to_agent" = Some (VStr receiver).
Proof.
  intros Htrack Hne (kw & Hkw & Hmatch).
  exists (message_metadata receiver (session_id self)),
         (escalation_metadata (session_id self) sender receiver).
  split.
  - assert (existsb (λ kw, contains kw (lower content)) escalation_keywords
            = true) as Hscan.
    { apply keyword_scan. exists kw.
      split; [done | by apply matches_ignoring_case_lower]. }
    rewrite on_message_run by done. cbn [snd memphora].
    by rewrite Htrack, Hscan.
  - unfold message_metadata, escalation_metadata.
    repeat split; by simplify_map_eq.
Qed.

(** C10, as the code has it.  With escalation tracking enabled, a
    non-empty message whose lowercased content contains one of the
    keywords as a substring gets an escalation record stored, whether or
    not the keyword stands as a whole word: "humanity" is escalated
    because it contains "human". *)
Theorem escalation_by_substring :
  (∀ (self : MemphoraAutoGen) (content sender receiver : string),
     track_escalations self = true →
     content ≠ "" →
     (∃ kw, kw ∈ ["escalate"; "human"; "supervisor"; "help needed"]
            ∧ occurs_in kw (lower content)) →
     escalation_record self content sender receiver
       ∈ memphora (snd (_on_message content sender receiver self)))
  ∧ memphora (snd (_on_message "humanity" "assistant" "user_proxy"
                     (init "session-123" true))) =
      [message_record (init "session-123" true) "humanity" "assistant"
         "user_proxy";
       escalation_record (init "session-123" true) "humanity" "assistant"
         "user_proxy"].
Proof.
  split; [ | reflexivity].
  intros self content sender receiver Htrack Hne Hkw.
  apply keyword_scan in Hkw.
  rewrite on_message_run by done. cbn [snd memphora].
  rewrite Htrack, Hkw. cbn [andb].
  rewrite elem_of_app, !elem_of_cons. auto.
Qed.

Lemma py_join_strings (sep : string) (lines acc : list string)
    (s : MemphoraAutoGen) :
  py_join sep (VStr <$> lines) acc s = (Ret (join sep (acc ++ lines)), s).
Proof.
  revert acc. induction lines as [ | l lines IH]; intros acc; simpl.
  - by rewrite app_nil_r.
  - rewrite IH. by rewrite <- app_assoc.
Qed.

Lemma context_lines_fmap (facts : list fact) (acc : list pyval) :
  foldl (λ (lines : list pyval) fact, lines ++ [context_line fact]) acc facts
  = acc ++ (context_line <$> facts).
Proof.
  revert acc. induction facts as [ | f facts IH]; intros acc; simpl.
  - by rewrite app_nil_r.
  - rewrite IH. by rewrite <- app_assoc.
Qed.

Lemma context_line_text (f : fact) :
  text_is_str f → context_line f = VStr (fact_text f).
Proof.
  destruct f as [d | v]; simpl; [ | done]. intros Hstr. unfold py_get.
  destruct (d !! "text") as [v | ] eqn:Hv; [ | done].
  by destruct (Hstr v eq_refl) as [s ->].
Qed.

Lemma render_facts (facts : list fact) (s : MemphoraAutoGen) :
  Forall text_is_str facts →
  match facts with
  | [] => ret ""
  | _ :: _ =>
      py_join newline
        (foldl (λ (lines : list pyval) fact, lines ++ [context_line fact])
           [] facts) []
  end s = (Ret (join newline (fact_text <$> facts)), s).
Proof.
  intros Hstr.
  assert (context_line <$> facts = VStr <$> (fact_text <$> facts)) as Hl.
  { rewrite <- list_fmap_compose. apply Forall_fmap_ext_1.
    eapply Forall_impl; [exact Hstr | ]. apply context_line_text. }
  destruct facts as [ | f rest] eqn:Hfacts; [done | ].
  rewrite <- Hfacts in *.
  by rewrite context_lines_fmap, app_nil_l, Hl, py_join_strings.
Qed.

Variable B : Backend.

(** C6.  [get_context] issues one search, scoped to the agent when an
    agent id is given and session-wide otherwise, takes the "facts" list
    of the answer (empty when the answer has none), renders a mapping
    fact as its "text" field and any other fact as its string form, and
    returns the renderings joined with newlines; with no facts the result
    is the empty string. *)
Theorem get_context_renders_facts (self : MemphoraAutoGen)
    (query : string) (agent_id : option string) (limit : Z) :
  let facts := searched_facts B (memphora self) agent_id query limit in
  Forall text_is_str facts →
  get_context B query agent_id limit self =
    (Ret (join newline (fact_text <$> facts)),
     with_calls (memphora self ++ [context_search agent_id query limit])
       self)
  ∧ (facts = [] → fst (get_context B query agent_id limit self) = Ret "").
Proof.
  intros facts Hstr.
  assert (get_context B query agent_id limit self =
    (Ret (join newline (fact_text <$> facts)),
     with_calls (memphora self ++ [context_search agent_id query limit])
       self)) as Hrun.
  { unfold get_context, context_search. subst facts.
    unfold searched_facts, given_agent in *.
    destruct agent_id as [a | ];
      [destruct (String.eqb_spec a ""); case_decide; try done | ];
      py_run; by apply render_facts. }
  split; [exact Hrun | ].
  intros Hnone. rewrite Hrun. simpl. by rewrite Hnone.
Qed.
End AutoGenProperties.

Lemma get_context_renders_facts_witness :
  AutoGen.get_context
      (constant_backend ""
         {[ "facts" :=
              [FactDict {[ "text" := VStr "likes tea"; "score" := VInt 3 ]};
               FactVal (VStr "raw note"); FactVal (VInt 7); FactDict ∅] ]})
      "tea" (Some "assistant") 5 (AutoGen.init "session-123" true) =
    (Ret ("likes tea" +:+ newline +:+ "raw note" +:+ newline +:+ "7"
            +:+ newline),
     with_calls [search_agent_memories_call "assistant" "tea" 5]
       (AutoGen.init "session-123" true))
  ∧ fst (AutoGen.get_context (constant_backend "" ∅) "tea" None 10
           (AutoGen.init "session-123" true)) = Ret "".
Proof.
  split.
  - refine (proj1 (get_context_renders_facts
             (constant_backend ""
                {[ "facts" :=
                     [FactDict {[ "text" := VStr "likes tea";
                                  "score" := VInt 3 ]};
                      FactVal (VStr "raw note"); FactVal (VInt 7);
                      FactDict ∅] ]})
             (AutoGen.init "session-123" true) "tea" (Some "assistant") 5 _)).
    vm_compute. repeat constructor.
    + intros v Hv. injection Hv as <-. by exists "likes tea".
    + intros v Hv. discriminate.
  - refine (proj2 (get_context_renders_facts (constant_backend "" ∅)
             (AutoGen.init "session-123" true) "tea" None 10 _) _).
    + constructor.
    + reflexivity.
Defined.

(** Outside the typing of the backend's answer: a text field that is not
    a string makes the join raise. *)
Example get_context_raises_on_non_string_text :
  fst (AutoGen.get_context
         (constant_backend "" {[ "facts" := [FactDict {[ "text" := VInt 5 ]}] ]})
         "tea" None 10 (AutoGen.init "session-123" true)) =
    Raise TypeError.
Proof. reflexivity. Qed.

Lemma empty_content_is_dropped_witness :
  AutoGen.receive_with_memory "assistant" (AutoGen.MsgDict ∅) None
      (AutoGen.init "session-123" true) =
    (Ret tt, AutoGen.init "session-123" true)
  ∧ AutoGen.receive_with_memory "assistant" (AutoGen.MsgStr "")
      (Some "user_proxy") (AutoGen.init "session-123" true) =
    (Ret tt, AutoGen.init "session-123" true).
Proof.
  split.
  - apply (empty_content_is_dropped (AutoGen.init "session-123" true)
             "assistant" (AutoGen.MsgDict ∅) None).
    reflexivity.
  - apply (empty_content_is_dropped (AutoGen.init "session-123" true)
             "assistant" (AutoGen.MsgStr "") (Some "user_proxy")).
    reflexivity.
Defined.

Lemma escalation_stores_two_records_witness :
  ∃ message_meta escalation_meta : gmap string pyval,
    AutoGen.memphora
      (snd (AutoGen._on_message "Please ESCALATE now" "assistant"
              "user_proxy" (AutoGen.init "session-123" true))) =
      [] ++
      [store_agent_memory_call "assistant" "Please ESCALATE now" message_meta;
       store_agent_memory_call "assistant"
         ("ESCALATION: " +:+ "Please ESCALATE now") escalation_meta]
    ∧ message_meta !! "type" = Some (VStr "message")
    ∧ escalation_meta !! "type" = Some (VStr "escalation")
    ∧ escalation_meta !! "from_agent" = Some (VStr "assistant")
    ∧ escalation_meta !! "to_agent" = Some (VStr "user_proxy").
Proof.
  apply (escalation_stores_two_records (AutoGen.init "session-123" true)
           "Please ESCALATE now" "assistant" "user_proxy").
  - reflexivity.
  - discriminate.
  - exists "escalate". split.
    + apply list_elem_of_here.
    + exists "Please ", "ESCALATE", " now". split; reflexivity.
Defined.

Lemma escalation_by_substring_witness :
  escalation_record (AutoGen.init "session-123" true) "Superhuman" "assistant"
    "user_proxy"
    ∈ AutoGen.memphora
        (snd (AutoGen._on_message "Superhuman" "assistant" "user_proxy"
                (AutoGen.init "session-123" true))).
Proof.
  apply (proj1 escalation_by_substring (AutoGen.init "session-123" true)
           "Superhuman" "assistant" "user_proxy").
  - reflexivity.
  - discriminate.
  - exists "human". split.
    + apply list_elem_of_further, list_elem_of_here.
    + exists "super", "". reflexivity.
Defined.

(** C10 as the specification words it, for every intercepted message:
    with escalation tracking disabled "humanity" is stored as a message
    only, and no escalation record follows. *)
Lemma escalation_by_substring_counterexample :
  ¬ (∀ (self : AutoGen.MemphoraAutoGen) (content sender receiver : string),
       content ≠ "" →
       (∃ kw, kw ∈ ["escalate"; "human"; "supervisor"; "help needed"]
              ∧ occurs_in kw (lower content)) →
       ∃ metadata : gmap string pyval,
         store_agent_memory_call sender ("ESCALATION: " +:+ content) metadata
           ∈ AutoGen.memphora
               (snd (AutoGen._on_message content sender receiver self))).
Proof.
  intros claim.
  destruct (claim (AutoGen.init "session-123" false) "humanity" "assistant"
              "user_proxy") as [metadata Hin].
  - discriminate.
  - exists "human". split.
    + apply list_elem_of_further, list_elem_of_here.
    + exists "", "ity". reflexivity.
  - assert (AutoGen.memphora
              (snd (AutoGen._on_message "humanity" "assistant" "user_proxy"
                      (AutoGen.init "session-123" false))) =
            [message_record (AutoGen.init "session-123" false) "humanity"
               "assistant" "user_proxy"]) as Hrun by reflexivity.
    rewrite Hrun in Hin. apply list_elem_of_singleton in Hin.
    unfold message_record in Hin. discriminate.
Qed.

(** * Further properties *)

(** ** LangChain: the shape of what is loaded *)

Section LangChainFurther.
Import LangChain.
Variable B : Backend.

Lemma load_memory_variables_cases
    (self : MemphoraLangChain) (inputs : gmap string pyval) :
  let query := py_get inputs (input_key self) (VStr "") in
  load_memory_variables B inputs self =
    if py_truthy query then
      (Ret {[ memory_key self :=
                if return_messages self then
                  Messages (_format_as_messages
                              (context_answer B (memphora self) query 10))
                else Text (context_answer B (memphora self) query 10) ]},
       with_calls (memphora self ++ [get_context_call query 10]) self)
    else
      (Ret {[ memory_key self :=
                if return_messages self then Messages [] else Text "" ]},
       self).
Proof.
  intros query. unfold load_memory_variables. py_run. fold query.
  destruct (py_truthy query); simpl; [ | done].
  by destruct (return_messages self).
Qed.

(** X1.  Whatever the inputs and the backend's answer, loading through
    the wrapper returns, without raising, a mapping with exactly one key,
    the one [memory_variables] declares, and the value under it has the
    type of the configured mode: a list of messages or a string. *)
Theorem load_memory_variables_shape
    (self : MemphoraLangChain) (inputs : gmap string pyval) :
  ∃ (result : gmap string payload) (value : payload),
    fst (LangChainMemory.load_memory_variables B inputs self) = Ret result
    ∧ dom result = list_to_set (LangChainMemory.memory_variables self)
    ∧ result !! memory_key self = Some value
    ∧ if return_messages self then ∃ l, value = Messages l
      else ∃ t, value = Text t.
Proof.
  unfold LangChainMemory.load_memory_variables,
    LangChainMemory.memory_variables.
  rewrite load_memory_variables_cases.
  destruct (py_truthy _); simpl;
    (eexists _, _; split; [reflexivity | ];
     split; [rewrite dom_singleton_L; set_solver | ];
     split; [apply lookup_singleton_eq | ]);
    destruct (return_messages self); eauto.
Qed.

(** X2.  [load_memory_variables] leaves the adapter and its client
    untouched exactly when the input key is absent or holds an empty
    value ([None], [False], [0] or the empty string); in every other
    case the trace of backend calls grows. *)
Theorem load_memory_variables_silent_iff
    (self : MemphoraLangChain) (inputs : gmap string pyval) :
  snd (load_memory_variables B inputs self) = self
  ↔ ¬ present_nonempty inputs (input_key self).
Proof.
  rewrite load_memory_variables_cases. unfold present_nonempty, py_get.
  destruct (inputs !! input_key self) as [q | ] eqn:Hq.
  - destruct (py_truthy q) eqn:Tq; simpl.
    + split.
      * intros Hsame. apply (f_equal memphora) in Hsame. simpl in Hsame.
        apply (f_equal length) in Hsame. rewrite length_app in Hsame.
        simpl in Hsame. lia.
      * intros Hnot. exfalso. apply Hnot. exists q.
        split; [done | by apply nonempty_truthy].
    + split; [ | done]. intros _ (v & [= <-] & Hv).
      apply nonempty_truthy in Hv. congruence.
  - simpl. split; [ | done]. by intros _ (v & ? & _).
Qed.
End LangChainFurther.

(** ** LlamaIndex: runs of [put], replays through [set], the wrapper *)

Section LlamaIndexFurther.
Import LlamaIndex.

Lemma put_run (self : MemphoraLlamaIndex) (u a : string) :
  put u a self =
    (Ret tt,
     {| memphora := memphora self ++ [store_pair (u, a)];
        token_limit := token_limit self;
        _chat_history :=
          _chat_history self ++
            [chat_message "user" u; chat_message "assistant" a] |}).
Proof.
  unfold put. py_run. unfold with_chat_history. simpl.
  by rewrite <- app_assoc.
Qed.

Lemma set_run (self : MemphoraLlamaIndex)
    (messages : list (gmap string string)) :
  Forall is_chat_message messages →
  set messages self =
    (Ret tt,
     {| memphora := memphora self ++ (store_pair <$> aligned_pairs messages);
        token_limit := token_limit self;
        _chat_history := messages |}).
Proof.
  intros Hwf. unfold set. rewrite py_range_pairs.
  unfold bind at 1, modify. rewrite set_loop; [ | done | ].
  - by rewrite aligned_pairs_half.
  - apply Forall_forall. intros k Hk. apply elem_of_seq in Hk.
    pose proof (Nat.div_mod_eq (length messages) 2).
    pose proof (Nat.mod_upper_bound (length messages) 2). lia.
Qed.

Lemma aligned_pair_shift (a b : gmap string string)
    (rest : list (gmap string string)) (i : nat) :
  aligned_pair (a :: b :: rest) (S i) = aligned_pair rest i.
Proof.
  unfold aligned_pair.
  replace (2 * S i)%nat with (S (S (2 * i))) by lia.
  replace (S (S (2 * i)) + 1)%nat with (S (S (2 * i + 1))) by lia.
  reflexivity.
Qed.

Lemma aligned_pairs_shift (a b : gmap string string)
    (rest : list (gmap string string)) (n j : nat) :
  omap (aligned_pair (a :: b :: rest)) (seq (S j) n) =
    omap (aligned_pair rest) (seq j n).
Proof.
  revert j. induction n as [ | n IH]; intros j; [done | ].
  simpl. by rewrite aligned_pair_shift, IH.
Qed.

Lemma omap_cons_option_list {A C} (f : A → option C) (x : A) (l : list A) :
  omap f (x :: l) = option_list (f x) ++ omap f l.
Proof. simpl. by destruct (f x). Qed.

Lemma aligned_pairs_cons (a b : gmap string string)
    (rest : list (gmap string string)) :
  aligned_pairs (a :: b :: rest) =
    option_list (aligned_pair [a; b] 0) ++ aligned_pairs rest.
Proof.
  unfold aligned_pairs. simpl length.
  change (seq 0 (S (S (length rest))))
    with (0%nat :: seq 1 (S (length rest))).
  assert (omap (aligned_pair (a :: b :: rest)) (seq 1 (S (length rest))) =
          omap (aligned_pair rest) (seq 0 (length rest))) as Htail.
  { rewrite aligned_pairs_shift, seq_S, omap_app.
    change [(0 + length rest)%nat] with (seq (0 + length rest) 1).
    rewrite (aligned_pairs_tail rest 1 (0 + length rest)).
    - apply app_nil_r.
    - change (0 + length rest)%nat with (length rest).
      apply Nat.Div0.div_le_upper_bound. lia. }
  rewrite omap_cons_option_list, Htail.
  by assert (aligned_pair (a :: b :: rest) 0 = aligned_pair [a; b] 0) as ->.
Qed.

Lemma history_of_chat_messages (pairs : list (string * string)) :
  Forall is_chat_message (history_of pairs).
Proof.
  induction pairs as [ | p pairs IH]; simpl; [constructor | ].
  repeat constructor; try done; unfold chat_message;
    rewrite ?lookup_insert_eq; try done;
    by rewrite lookup_insert_ne, lookup_singleton_eq.
Qed.

Lemma aligned_pairs_history_of (pairs : list (string * string)) :
  aligned_pairs (history_of pairs) = pairs.
Proof.
  induction pairs as [ | [u a] pairs IH]; [done | ].
  simpl history_of. rewrite aligned_pairs_cons, IH. reflexivity.
Qed.

Lemma aligned_pairs_shifted (m : gmap string string)
    (pairs : list (string * string)) :
  aligned_pairs (m :: history_of pairs) = [].
Proof.
  revert m. induction pairs as [ | [u a] pairs IH]; intros m; [done | ].
  simpl history_of. rewrite aligned_pairs_cons, IH.
  unfold aligned_pair. simpl. by rewrite decide_False by (by intros [_ ?]).
Qed.

(** [get] without a query, or with the empty string, returns the
    empty string and asks the backend nothing; with any other query it
    issues exactly one [get_context] call carrying the caller's limit and
    returns the backend's answer. *)
Theorem get_queries_only_nonempty (B : Backend) (self : MemphoraLlamaIndex)
    (limit : Z) :
  get B None limit self = (Ret "", self)
  ∧ get B (Some "") limit self = (Ret "", self)
  ∧ ∀ query, query ≠ "" →
      get B (Some query) limit self =
        (Ret (context_answer B (memphora self) (VStr query) limit),
         with_calls (memphora self ++ [get_context_call (VStr query) limit])
           self).
Proof.
  split; [done | ]. split; [done | ].
  intros query Hne. unfold get.
  by destruct (String.eqb_spec query "").
Qed.

Lemma puts_run (self : MemphoraLlamaIndex) (pairs : list (string * string)) :
  puts pairs self =
    (Ret tt,
     {| memphora := memphora self ++ (store_pair <$> pairs);
        token_limit := token_limit self;
        _chat_history := _chat_history self ++ history_of pairs |}).
Proof.
  revert self. unfold puts.
  induction pairs as [ | [u a] pairs IH]; intros self.
  - simpl. unfold ret. destruct self. simpl. by rewrite !app_nil_r.
  - simpl for_each. unfold bind. rewrite put_run, IH. simpl.
    by rewrite <- !app_assoc.
Qed.

(** X3.  A run of [put] calls appends to the trace one
    [store_conversation] per pair, in order, and to the chat history the
    alternating user and assistant entries of the pairs; what was there
    before is kept. *)
Theorem puts_build_history (self : MemphoraLlamaIndex)
    (pairs : list (string * string)) :
  puts pairs self =
    (Ret tt,
     {| memphora := memphora self ++ (store_pair <$> pairs);
        token_limit := token_limit self;
        _chat_history := _chat_history self ++ history_of pairs |}).
Proof.
  revert self. unfold puts.
  induction pairs as [ | [u a] pairs IH]; intros self.
  - simpl. unfold ret. destruct self. simpl. by rewrite !app_nil_r.
  - simpl for_each. unfold bind at 1. rewrite put_run.
    rewrite IH. cbn [memphora token_limit _chat_history fmap list_fmap].
    simpl history_of. by rewrite <- !app_assoc.
Qed.

(** X4.  Handing the history built by [put] calls back to [set] issues
    the same [store_conversation] calls a second time: after a reset, a
    run of [put] calls and [set(get_all())], the trace holds every pair
    twice and the history is the one the [put] calls built. *)
Theorem set_replays_puts (self : MemphoraLlamaIndex)
    (pairs : list (string * string)) :
  (reset ;;; puts pairs ;;; history <~ get_all ;; set history) self =
    (Ret tt,
     {| memphora :=
          memphora self ++ (store_pair <$> pairs) ++ (store_pair <$> pairs);
        token_limit := token_limit self;
        _chat_history := history_of pairs |}).
Proof.
  unfold bind at 1, reset, modify. unfold bind at 1.
  rewrite puts_run. unfold bind, get_all, gets.
  cbn [_chat_history with_chat_history app].
  rewrite set_run by apply history_of_chat_messages.
  rewrite aligned_pairs_history_of. simpl. by rewrite <- app_assoc.
Qed.

(** X5.  One chat message in front of a history of alternating user and
    assistant entries shifts every pair off the even positions: [set]
    replaces the history and stores nothing at all. *)
Theorem set_shifted_stores_nothing (self : MemphoraLlamaIndex)
    (m : gmap string string) (pairs : list (string * string)) :
  is_chat_message m →
  set (m :: history_of pairs) self =
    (Ret tt,
     {| memphora := memphora self; token_limit := token_limit self;
        _chat_history := m :: history_of pairs |}).
Proof.
  intros Hm. rewrite set_run.
  - rewrite aligned_pairs_shifted. simpl. by rewrite app_nil_r.
  - constructor; [done | apply history_of_chat_messages].
Qed.
End LlamaIndexFurther.

Lemma set_shifted_stores_nothing_witness :
  LlamaIndex.set
    (LlamaIndex.chat_message "system" "be brief" ::
     history_of [("hi", "hey"); ("bye", "see you")])
    (LlamaIndex.init 3000) =
  (Ret tt,
   {| LlamaIndex.memphora := []; LlamaIndex.token_limit := 3000;
      LlamaIndex._chat_history :=
        LlamaIndex.chat_message "system" "be brief" ::
        history_of [("hi", "hey"); ("bye", "see you")] |}).
Proof.
  apply (set_shifted_stores_nothing (LlamaIndex.init 3000)
           (LlamaIndex.chat_message "system" "be brief")
           [("hi", "hey"); ("bye", "see you")]).
  split; eexists; reflexivity.
Defined.

Section LlamaMemoryProperties.
Import LlamaIndex.








End LlamaMemoryProperties.



(** ** CrewAI: handles and shared memory *)

Section CrewAIFurther.
Import CrewAI.

Lemma for_agent_in_map (self : MemphoraCrewAI) (a : string) (r : ref) :
  fst (for_agent a self) = Ret r →
  _agent_memories (snd (for_agent a self)) !! a = Some r.
Proof.
  destruct (for_agent_memo self a) as (r' & Hret & Hmemo).
  rewrite Hret. by intros [= <-].
Qed.

Lemma for_agent_size (self : MemphoraCrewAI) (a : string) :
  length (handles self) = size (_agent_memories self) →
  length (handles (snd (for_agent a self))) =
    size (_agent_memories (snd (for_agent a self))).
Proof.
  intros Hsize. destruct (_agent_memories self !! a) as [r | ] eqn:Hr.
  - by rewrite (for_agent_known _ _ _ Hr).
  - rewrite (for_agent_new _ _ Hr). simpl.
    rewrite length_app, map_size_insert_None by done. simpl. lia.
Qed.

Lemma for_agent_silent (self : MemphoraCrewAI) (a : string) :
  memphora (snd (for_agent a self)) = memphora self.
Proof.
  destruct (_agent_memories self !! a) as [r | ] eqn:Hr.
  - by rewrite (for_agent_known _ _ _ Hr).
  - by rewrite (for_agent_new _ _ Hr).
Qed.

Lemma after_calls_size (ids : list string) (self : MemphoraCrewAI) :
  length (handles self) = size (_agent_memories self) →
  length (handles (after_calls ids self)) =
    size (_agent_memories (after_calls ids self)).
Proof.
  revert self. induction ids as [ | a ids IH]; intros self Hsize; [done | ].
  apply IH, for_agent_size, Hsize.
Qed.

Lemma after_calls_silent (ids : list string) (self : MemphoraCrewAI) :
  memphora (after_calls ids self) = memphora self.
Proof.
  revert self. induction ids as [ | a ids IH]; intros self; [done | ].
  simpl. by rewrite IH, for_agent_silent.
Qed.

(** X10.  After any run of [for_agent] calls on a new crew adapter the
    number of handles constructed is the number of distinct agent ids
    asked for, two different agent ids never share a handle, and no
    backend call has been issued. *)
Theorem for_agent_one_handle_per_id (crew : string) (ids : list string) :
  let s := after_calls ids (init crew) in
  length (handles s) = size (list_to_set ids : gset string)
  ∧ (∀ a b r, a ∈ ids → b ∈ ids →
       fst (for_agent a s) = Ret r → fst (for_agent b s) = Ret r → a = b)
  ∧ memphora s = [].
Proof.
  intros s.
  assert (handles_consistent s) as Hs
    by apply after_calls_consistent, handles_consistent_init.
  assert (dom (_agent_memories s) = list_to_set ids) as Hdom.
  { unfold s. rewrite after_calls_dom. simpl. set_solver. }
  split; [ | split].
  - unfold s. rewrite after_calls_size by done. fold s.
    by rewrite <- Hdom, size_dom.
  - intros a b r Ha Hb Hra Hrb.
    assert (∀ x, x ∈ ids → fst (for_agent x s) = Ret r →
                 _agent_memories s !! x = Some r) as Hknown.
    { intros x Hx Hret.
      assert (is_Some (_agent_memories s !! x)) as [rx Hrx].
      { apply (elem_of_dom (D := gset string)). rewrite Hdom.
        by rewrite elem_of_list_to_set. }
      rewrite (for_agent_known _ _ _ Hrx) in Hret. simpl in Hret.
      congruence. }
    pose proof (Hs _ _ (Hknown a Ha Hra)) as Hha.
    pose proof (Hs _ _ (Hknown b Hb Hrb)) as Hhb.
    congruence.
  - unfold s. by rewrite after_calls_silent.
Qed.

(** X11.  A handle obtained from [for_agent a], on a crew adapter that
    has served any earlier [for_agent] calls, searches the memories of
    agent [a] and of no other agent, and its [search_crew] searches the
    group of the crew the adapter was built for. *)
Theorem handle_searches_are_scoped (B : Backend) (G : GroupBackend)
    (crew : string) (before : list string) (a query : string) (limit : Z)
    (seen : list group_call) :
  let s1 := snd (for_agent a (after_calls before (init crew))) in
  ∃ (r : ref) (h : AgentMemory.MemphoraAgentMemory),
    fst (for_agent a (after_calls before (init crew))) = Ret r
    ∧ handles s1 !! r = Some h
    ∧ AgentMemoryMethods.search B h query limit s1 =
        (Ret (search_agent_answer B (memphora s1) a query limit),
         with_calls (memphora s1 ++ [search_agent_memories_call a query limit])
           s1)
    ∧ AgentMemoryMethods.search_crew G h query limit (s1, seen) =
        (Ret (search_group_answer G seen crew query limit),
         (s1, seen ++ [search_group_memories_call crew query limit])).
Proof.
  intros s1.
  assert (handles_consistent s1) as Hs1.
  { apply for_agent_consistent, after_calls_consistent,
      handles_consistent_init. }
  assert (crew_id s1 = crew) as Hcrew.
  { unfold s1. by rewrite for_agent_crew_id, after_calls_crew_id. }
  destruct (for_agent_memo (after_calls before (init crew)) a)
    as (r & Hret & Hmemo).
  exists r, {| AgentMemory.agent_id := a; AgentMemory.crew_id := crew |}.
  split; [done | ]. split; [by rewrite (Hs1 _ _ Hmemo), Hcrew | ].
  split; reflexivity.
Qed.
End CrewAIFurther.

Section CrewSharedProperties.
Import CrewAI CrewShared.

(** X12.  [store_shared] issues one [store_group_memory] call for the
    group of the crew.  The metadata it forwards has [shared] set to
    [True] and [crew_id] set to the crew id, whatever the caller had under
    these two keys, and every other entry of the caller's metadata.  A
    non-empty dict passed by the caller is itself changed to the forwarded
    metadata; [None] and an empty dict are left as they are. *)
Theorem store_shared_tags_metadata (G : GroupBackend) (self : MemphoraCrewAI)
    (seen : list group_call) (content : string)
    (metadata : option (gmap string pyval)) :
  ∃ meta caller : _,
    store_shared G content metadata (self, seen) =
      (Ret (store_group_answer G seen (crew_id self) content meta, caller),
       (self, seen ++ [store_group_memory_call (crew_id self) content meta]))
    ∧ meta !! "shared" = Some (VBool true)
    ∧ meta !! "crew_id" = Some (VStr (crew_id self))
    ∧ (∀ k, k ≠ "shared" → k ≠ "crew_id" →
         meta !! k = default ∅ metadata !! k)
    ∧ match metadata with
      | None => caller = None
      | Some d => caller = Some (if decide (d = ∅) then d else meta)
      end.
Proof.
  exists (<["crew_id" := VStr (crew_id self)]>
            (<["shared" := VBool true]> (metadata_or_new metadata))).
  exists (match metadata with
          | Some d =>
              if Nat.eqb (size d) 0 then Some d
              else Some (<["crew_id" := VStr (crew_id self)]>
                           (<["shared" := VBool true]>
                              (metadata_or_new metadata)))
          | None => None
          end).
  split; [reflexivity | ].
  split; [by simplify_map_eq | ]. split; [by simplify_map_eq | ].
  split.
  - intros k Hshared Hcrew. rewrite !lookup_insert_ne by done.
    unfold metadata_or_new. destruct metadata as [d | ]; simpl; [ | done].
    destruct (Nat.eqb_spec (size d) 0) as [Hsize | ]; [ | done].
    apply map_size_empty_iff in Hsize. by subst.
  - destruct metadata as [d | ]; [ | done].
    destruct (Nat.eqb_spec (size d) 0) as [Hsize | Hsize]; case_decide;
      try done.
    + by apply map_size_empty_iff in Hsize.
    + subst. by rewrite map_size_empty in Hsize.
Qed.
End CrewSharedProperties.

(** ** AutoGen: whole sessions, escalation only on keywords, failures *)

Section AutoGenFurther.
Import AutoGen.

Lemma deliver_run (self : MemphoraAutoGen) (d : delivery) :
  deliver d self =
    (Ret tt,
     {| memphora := memphora self ++ records_of self d;
        session_id := session_id self;
        track_escalations := track_escalations self;
        _message_buffer :=
          _message_buffer self ++
            (if String.eqb d.1.1 "" then []
             else [buffer_entry d.1.1 d.1.2 d.2]) |}).
Proof.
  unfold deliver, records_of.
  destruct (String.eqb_spec d.1.1 "") as [Hempty | Hne].
  - unfold _on_message. rewrite Hempty. simpl. unfold ret.
    destruct self. simpl. by rewrite !app_nil_r.
  - by rewrite on_message_run.
Qed.

Lemma deliveries_run (l : list delivery) (self : MemphoraAutoGen) :
  for_each l deliver self =
    (Ret tt,
     {| memphora := memphora self ++ concat (records_of self <$> l);
        session_id := session_id self;
        track_escalations := track_escalations self;
        _message_buffer :=
          _message_buffer self ++
            ((λ d : delivery, buffer_entry d.1.1 d.1.2 d.2) <$>
               filter (λ d : delivery, d.1.1 ≠ "") l) |}).
Proof.
  revert self. induction l as [ | d l IH]; intros self.
  - simpl. unfold ret. destruct self. simpl. by rewrite !app_nil_r.
  - simpl for_each. unfold bind. rewrite deliver_run, IH.
    cbn [memphora session_id track_escalations _message_buffer].
    rewrite filter_cons. f_equal. f_equal.
    + rewrite fmap_cons. simpl concat. by rewrite <- app_assoc.
    + rewrite <- app_assoc. f_equal.
      destruct (String.eqb_spec d.1.1 ""); case_decide; done.
Qed.

(** X13.  Over a whole run of intercepted messages no call raises, and
    afterwards the message buffer holds what it held before followed by
    one entry for each message with a non-empty content, in the order of
    arrival; it is what [get_conversation_history] returns. *)
Theorem message_buffer_in_arrival_order
    (self : MemphoraAutoGen) (l : list delivery) :
  (for_each l deliver ;;; get_conversation_history) self =
    (Ret (_message_buffer self ++
            ((λ d : delivery, buffer_entry d.1.1 d.1.2 d.2) <$>
               filter (λ d : delivery, d.1.1 ≠ "") l)),
     snd (for_each l deliver self)).
Proof. unfold bind. by rewrite deliveries_run. Qed.

(** X14.  With escalation tracking disabled, a whole run of intercepted
    messages adds to the trace exactly one message record for each message
    with a non-empty content, in the order of arrival, and never an
    escalation record, whatever the contents say. *)
Theorem no_tracking_no_escalation (self : MemphoraAutoGen)
    (l : list delivery) :
  track_escalations self = false →
  memphora (snd (for_each l deliver self)) =
    memphora self ++
      ((λ d : delivery, message_record self d.1.1 d.1.2 d.2) <$>
         filter (λ d : delivery, d.1.1 ≠ "") l).
Proof.
  intros Hoff. rewrite deliveries_run. cbn [snd memphora]. f_equal.
  induction l as [ | d l IH]; [done | ].
  rewrite fmap_cons, filter_cons. simpl concat. rewrite IH.
  unfold records_of. rewrite Hoff.
  destruct (String.eqb_spec d.1.1 ""); case_decide; done.
Qed.

(** X15.  A message whose lowercased content contains none of the four
    keywords is stored once, as a message record, and buffered; no
    escalation record is stored for it, with tracking enabled or not. *)
Theorem no_keyword_no_escalation (self : MemphoraAutoGen)
    (content sender receiver : string) :
  content ≠ "" →
  (∀ kw, kw ∈ ["escalate"; "human"; "supervisor"; "help needed"] →
         ¬ occurs_in kw (lower content)) →
  _on_message content sender receiver self =
    (Ret tt,
     {| memphora := memphora self ++ [message_record self content sender
                                        receiver];
        session_id := session_id self;
        track_escalations := track_escalations self;
        _message_buffer :=
          _message_buffer self ++ [buffer_entry content sender receiver] |}).
Proof.
  intros Hne Hnone. rewrite on_message_run by done.
  destruct (existsb (λ kw, contains kw (lower content)) escalation_keywords)
    eqn:Hscan.
  - apply keyword_scan in Hscan as (kw & Hin & Hocc).
    by destruct (Hnone kw Hin).
  - by rewrite andb_false_r.
Qed.
End AutoGenFurther.

Lemma no_tracking_no_escalation_witness :
  AutoGen.memphora
    (snd (for_each
            [("please escalate now", "assistant", "user_proxy");
             ("", "user_proxy", "assistant");
             ("ok", "user_proxy", "assistant")]
            deliver (AutoGen.init "session-123" false))) =
  [] ++
  [message_record (AutoGen.init "session-123" false) "please escalate now"
     "assistant" "user_proxy";
   message_record (AutoGen.init "session-123" false) "ok" "user_proxy"
     "assistant"].
Proof.
  apply (no_tracking_no_escalation (AutoGen.init "session-123" false)
           [("please escalate now", "assistant", "user_proxy");
            ("", "user_proxy", "assistant");
            ("ok", "user_proxy", "assistant")]).
  reflexivity.
Defined.

Lemma no_keyword_no_escalation_witness :
  AutoGen._on_message "All good, thanks" "assistant" "user_proxy"
    (AutoGen.init "session-123" true) =
  (Ret tt,
   {| AutoGen.memphora :=
        [] ++ [message_record (AutoGen.init "session-123" true)
                 "All good, thanks" "assistant" "user_proxy"];
      AutoGen.session_id := "session-123";
      AutoGen.track_escalations := true;
      AutoGen._message_buffer :=
        [] ++ [buffer_entry "All good, thanks" "assistant" "user_proxy"] |}).
Proof.
  apply (no_keyword_no_escalation (AutoGen.init "session-123" true)
           "All good, thanks" "assistant" "user_proxy").
  - discriminate.
  - intros kw Hin Hocc. apply contains_occurs in Hocc.
    repeat (apply elem_of_cons in Hin as [-> | Hin]; [discriminate | ]).
    by apply elem_of_nil in Hin.
Defined.

Section AutoGenContext.
Import AutoGen.
Variable B : Backend.

Lemma text_is_strb_spec (f : fact) : text_is_strb f = true ↔ text_is_str f.
Proof.
  destruct f as [d | v]; simpl; [ | done].
  destruct (d !! "text") as [[ | b | z | t] | ]; split; try done;
    try (intros Hstr; by destruct (Hstr _ eq_refl)).
  intros _ v [= <-]. by exists t.
Qed.

Lemma forallb_text_is_str (facts : list fact) :
  forallb text_is_strb facts = true ↔ Forall text_is_str facts.
Proof.
  induction facts as [ | f facts IH]; simpl.
  - split; [constructor | done].
  - rewrite andb_true_iff, Forall_cons, IH, text_is_strb_spec. done.
Qed.

Lemma py_join_context_lines (facts : list fact) (acc : list string)
    (s : MemphoraAutoGen) :
  py_join newline (context_line <$> facts) acc s =
    if forallb text_is_strb facts
    then (Ret (join newline (acc ++ (fact_text <$> facts))), s)
    else (Raise TypeError, s).
Proof.
  revert acc. induction facts as [ | f facts IH]; intros acc.
  - simpl. by rewrite app_nil_r.
  - rewrite fmap_cons. cbn [forallb].
    destruct (text_is_strb f) eqn:Hf.
    + apply text_is_strb_spec in Hf. rewrite (context_line_text _ Hf).
      cbn [py_join andb]. rewrite IH, fmap_cons.
      by rewrite <- app_assoc.
    + destruct f as [d | v]; [ | done]. simpl in Hf. simpl.
      unfold py_get. by destruct (d !! "text") as [[ | b | z | t] | ].
Qed.

Lemma render_facts_run (facts : list fact) (s : MemphoraAutoGen) :
  match facts with
  | [] => ret ""
  | _ :: _ =>
      py_join newline
        (foldl (λ (lines : list pyval) fact, lines ++ [context_line fact])
           [] facts) []
  end s =
    (match facts with
     | [] => Ret ""
     | f :: rest =>
         if forallb text_is_strb (f :: rest)
         then Ret (join newline (fact_text <$> f :: rest))
         else Raise TypeError
     end, s).
Proof.
  destruct facts as [ | f rest]; [done | ].
  rewrite context_lines_fmap, app_nil_l, py_join_context_lines.
  by destruct (forallb text_is_strb (f :: rest)).
Qed.

(** What [get_context] does, all cases in one equation. *)
Lemma get_context_run (self : MemphoraAutoGen) (query : string)
    (agent_id : option string) (limit : Z) :
  get_context B query agent_id limit self =
    (match searched_facts B (memphora self) agent_id query limit with
     | [] => Ret ""
     | f :: facts =>
         if forallb text_is_strb (f :: facts)
         then Ret (join newline (fact_text <$> f :: facts))
         else Raise TypeError
     end,
     with_calls (memphora self ++ [context_search agent_id query limit]) self).
Proof.
  unfold get_context, context_search, searched_facts, given_agent.
  destruct agent_id as [a | ];
    [destruct (String.eqb_spec a ""); case_decide; try done | ];
    py_run; apply render_facts_run.
Qed.

(** X16.  [get_context] raises, with a [TypeError] from the join, exactly
    when the facts of the answer include a structured fact whose "text"
    is present and not a string; in that case as in every other the one
    search call has been issued and nothing else of the adapter has
    changed. *)
Theorem get_context_raises_iff (self : MemphoraAutoGen) (query : string)
    (agent_id : option string) (limit : Z) :
  let facts := searched_facts B (memphora self) agent_id query limit in
  (fst (get_context B query agent_id limit self) = Raise TypeError
   ↔ ¬ Forall text_is_str facts)
  ∧ snd (get_context B query agent_id limit self) =
      with_calls (memphora self ++ [context_search agent_id query limit])
        self.
Proof.
  intros facts. rewrite get_context_run. fold facts. split; [ | done].
  rewrite <- forallb_text_is_str. cbn [fst].
  destruct facts as [ | f rest]; [done | ].
  destruct (forallb text_is_strb (f :: rest)); split; done.
Qed.

(** X17.  [clear_session] empties the message buffer and nothing else:
    the trace of backend calls is kept, and [get_context] and
    [get_escalations] return afterwards what they would have returned
    without it. *)
Theorem clear_session_keeps_backend (self : MemphoraAutoGen)
    (query : string) (agent_id : option string) (limit : Z) :
  let cleared := snd (clear_session self) in
  _message_buffer cleared = []
  ∧ memphora cleared = memphora self
  ∧ fst (get_context B query agent_id limit cleared) =
      fst (get_context B query agent_id limit self)
  ∧ fst (get_escalations B limit cleared) =
      fst (get_escalations B limit self).
Proof.
  intros cleared. split; [done | ]. split; [done | ].
  split; [by rewrite !get_context_run | done].
Qed.
End AutoGenContext.

(** ** LlamaIndex: [set] on a malformed history *)

Section SetFailure.
Import LlamaIndex.

Lemma for_each_app {S A} (xs ys : list A) (body : A → Py S unit) (s : S) :
  for_each (xs ++ ys) body s =
    match for_each xs body s with
    | (Ret _, s') => for_each ys body s'
    | (Raise e, s') => (Raise e, s')
    end.
Proof.
  revert s. induction xs as [ | x xs IH]; intros s; [done | ].
  simpl. unfold bind. destruct (body x s) as [[[] | e] s']; [apply IH | done].
Qed.

Lemma set_step_local (messages : list (gmap string string)) (k : nat)
    (m m' : gmap string string) (s : MemphoraLlamaIndex) :
  messages !! (2 * k)%nat = Some m →
  messages !! (2 * k + 1)%nat = Some m' →
  is_chat_message m → is_chat_message m' →
  set_step messages (0 + Z.of_nat k * 2) s =
    (Ret tt,
     with_calls (memphora s ++ calls_of_pair (aligned_pair messages k)) s).
Proof.
  intros Hm Hm' [[r Hr] [c Hc]] [[r' Hr'] [c' Hc']].
  replace (0 + Z.of_nat k * 2) with (Z.of_nat (2 * k)) by lia.
  unfold set_step.
  replace (Z.of_nat (2 * k) + 1) with (Z.of_nat (2 * k + 1)) by lia.
  unfold aligned_pair. rewrite Hm, Hm'. simpl.
  unfold bind at 1. rewrite (py_index_lookup _ _ _ _ Hm).
  py_run. rewrite Hr.
  destruct (String.eqb_spec r "user") as [-> | Hne].
  - rewrite (py_index_lookup _ _ _ _ Hm'), Hr'.
    destruct (String.eqb_spec r' "assistant") as [-> | Hne'].
    + rewrite (py_index_lookup _ _ _ _ Hm), Hc.
      rewrite (py_index_lookup _ _ _ _ Hm'), Hc'.
      by rewrite decide_True by done.
    + rewrite decide_False by (intros [_ ?]; congruence).
      simpl. f_equal. symmetry. apply with_calls_same.
  - rewrite decide_False by (intros [? _]; congruence).
    simpl. f_equal. symmetry. apply with_calls_same.
Qed.

Lemma set_step_no_role (messages : list (gmap string string)) (k : nat)
    (bad : gmap string string) (s : MemphoraLlamaIndex) :
  messages !! (2 * k)%nat = Some bad →
  bad !! "role" = None →
  set_step messages (0 + Z.of_nat k * 2) s = (Raise (KeyError "role"), s).
Proof.
  intros Hbad Hrole.
  replace (0 + Z.of_nat k * 2) with (Z.of_nat (2 * k)) by lia.
  unfold set_step. unfold bind at 1.
  rewrite (py_index_lookup _ _ _ _ Hbad). py_run. by rewrite Hrole.
Qed.

Lemma length_history_of (pairs : list (string * string)) :
  length (history_of pairs) = (2 * length pairs)%nat.
Proof. induction pairs as [ | p pairs IH]; simpl; lia. Qed.

Lemma set_loop_prefix (pairs : list (string * string))
    (tail : list (gmap string string)) (n : nat) :
  (n ≤ length pairs)%nat →
  ∀ s : MemphoraLlamaIndex,
    for_each ((λ k : nat, 0 + Z.of_nat k * 2) <$> seq 0 n)
      (set_step (history_of pairs ++ tail)) s =
    (Ret tt,
     with_calls
       (memphora s ++
          (store_pair <$>
             omap (aligned_pair (history_of pairs)) (seq 0 n))) s).
Proof.
  induction n as [ | n IH]; intros Hn s.
  - simpl. unfold ret. f_equal. symmetry. apply with_calls_same.
  - rewrite seq_S, fmap_app, for_each_app, IH by lia.
    rewrite omap_app, fmap_app. cbn [fmap list_fmap for_each plus].
    pose proof (history_of_chat_messages pairs) as Hwf.
    pose proof (length_history_of pairs) as Hlen.
    destruct (lookup_lt_is_Some_2 (history_of pairs) (2 * n)%nat)
      as [m Hm]; [lia | ].
    destruct (lookup_lt_is_Some_2 (history_of pairs) (2 * n + 1)%nat)
      as [m' Hm']; [lia | ].
    unfold bind at 1.
    rewrite (set_step_local _ n m m');
      [ | by rewrite lookup_app_l by lia | by rewrite lookup_app_l by lia
        | by eapply Forall_lookup_1 | by eapply Forall_lookup_1 ].
    assert (aligned_pair (history_of pairs ++ tail) n =
            aligned_pair (history_of pairs) n) as ->.
    { unfold aligned_pair. by rewrite !lookup_app_l by lia. }
    unfold ret.
    cbn [with_calls client memphora token_limit _chat_history].
    rewrite <- app_assoc. do 4 f_equal. simpl.
    by destruct (aligned_pair (history_of pairs) n).
Qed.

(** X6.  [set] is not all or nothing.  When a history of alternating
    user and assistant entries is followed by a dict without a role (and
    at least one more entry), [set] raises [KeyError] for "role"; by then
    the chat history has been replaced by the whole new list and the
    pairs in front of the faulty entry have been stored, while nothing
    after it is looked at. *)
Theorem set_raises_after_partial_store (self : MemphoraLlamaIndex)
    (pairs : list (string * string)) (bad : gmap string string)
    (rest : list (gmap string string)) :
  bad !! "role" = None →
  rest ≠ [] →
  set (history_of pairs ++ bad :: rest) self =
    (Raise (KeyError "role"),
     {| memphora := memphora self ++ (store_pair <$> pairs);
        token_limit := token_limit self;
        _chat_history := history_of pairs ++ bad :: rest |}).
Proof.
  intros Hrole Hrest. unfold set. rewrite py_range_pairs.
  pose proof (length_history_of pairs) as Hlen.
  set (messages := history_of pairs ++ bad :: rest).
  assert (length messages = (2 * length pairs + 1 + length rest)%nat) as Hn.
  { unfold messages. rewrite length_app. simpl. lia. }
  assert (0 < length rest)%nat as Hpos by (destruct rest; [done | simpl; lia]).
  assert (∃ more, (length messages / 2 = length pairs + S more)%nat)
    as [more Hhalf].
  { exists (length messages / 2 - length pairs - 1)%nat.
    assert (length pairs + 1 ≤ length messages / 2)%nat; [ | lia].
    apply Nat.div_le_lower_bound; lia. }
  rewrite Hhalf, seq_app, fmap_app. cbn [seq fmap list_fmap plus].
  unfold bind at 1, modify. rewrite for_each_app.
  unfold messages at 1. rewrite set_loop_prefix by done.
  cbn [for_each]. unfold bind at 1.
  rewrite (set_step_no_role messages (length pairs) bad);
    [ | unfold messages; by rewrite <- Hlen, list_lookup_middle | done ].
  cbn [with_calls client memphora with_chat_history token_limit
       _chat_history].
  assert (omap (aligned_pair (history_of pairs)) (seq 0 (length pairs)) =
          pairs) as ->; [ | done].
  rewrite <- (aligned_pairs_history_of pairs) at 3.
  rewrite aligned_pairs_half, Hlen.
  by replace (2 * length pairs / 2)%nat with (length pairs)
    by (apply Nat.div_unique_exact; lia).
Qed.
End SetFailure.

Lemma set_raises_after_partial_store_witness :
  LlamaIndex.set
    (history_of [("hi", "hey")] ++
       {[ "content" := "no role" ]} :: [LlamaIndex.chat_message "user" "bye"])
    (LlamaIndex.init 3000) =
  (Raise (KeyError "role"),
   {| LlamaIndex.memphora := [] ++ (store_pair <$> [("hi", "hey")]);
      LlamaIndex.token_limit := 3000;
      LlamaIndex._chat_history :=
        history_of [("hi", "hey")] ++
          {[ "content" := "no role" ]} ::
          [LlamaIndex.chat_message "user" "bye"] |}).
Proof.
  apply (set_raises_after_partial_store (LlamaIndex.init 3000)
           [("hi", "hey")] {[ "content" := "no role" ]}
           [LlamaIndex.chat_message "user" "bye"]).
  - reflexivity.
  - discriminate.
Defined.
